(** * structure-store: the Snowflake route handlers (routes/snowflake.js)

    A shallow embedding of the three POST handlers of [snowflakeRouter]
    and of the helper functions they share, together with the properties
    of the repository's specification that concern them.

    The handlers are sequences of parameter checks followed by calls into
    two collaborators that are not part of the repository: the Express
    response object ([res.send]) and the snowflake-sdk driver
    ([createConnection], [connect], [execute], [getId]).  Both are taken
    as parameters of the model (record [Runtime]); every call a handler
    makes is recorded, in order, in a trace of [Event]s.  The driver may
    throw at [createConnection], which the handlers call outside their
    [try] blocks, and may fail at [connect] and [execute]. *)

From Stdlib Require Import List String Ascii ZArith Bool Lia DecimalString.
Import ListNotations.
Local Open Scope string_scope.

Set Implicit Arguments.
Set Warnings "-register-all".

(** ** JavaScript values *)

Module Js.

(** The values that reach the handlers: what a JSON body can carry, plus
    [undefined] for an absent property.  [JNum n] is the number [n], a
    safe integer (below 2^53 in absolute value); other numbers are not
    values of the model. *)
Inductive JsValue : Type :=
| JUndefined
| JNull
| JBool (b : bool)
| JNum (n : Z)
| JStr (s : string)
| JArr (items : list JsValue)
| JObj (props : list (string * JsValue)).

(** An exception value, seen through the only thing the handlers read of
    it: the text that [... + err.message] appends. *)
Record JsError : Type := mkError { message : string }.

(** ToBoolean: [undefined], [null], [false], [0] and [""] are falsy. *)
Definition truthy (v : JsValue) : bool :=
  match v with
  | JUndefined | JNull => false
  | JBool b => b
  | JNum n => negb (Z.eqb n 0)
  | JStr s => negb (String.eqb s "")
  | JArr _ | JObj _ => true
  end.

Definition string_of_Z (n : Z) : string :=
  NilEmpty.string_of_int (Z.to_int n).

Fixpoint join (sep : string) (l : list string) : string :=
  match l with
  | [] => ""
  | [s] => s
  | s :: rest => s ++ sep ++ join sep rest
  end.

(** The text of a value, as a template literal and ["..." + v] produce
    it when the conversion does not throw (see [convertible]).  A safe
    integer prints in plain decimal; an array prints its items joined by
    commas, with [null] and [undefined] items empty; an object without a
    [toString] property of its own prints as [[object Object]]. *)
Fixpoint toString (v : JsValue) : string :=
  match v with
  | JUndefined => "undefined"
  | JNull => "null"
  | JBool true => "true"
  | JBool false => "false"
  | JNum n => string_of_Z n
  | JStr s => s
  | JArr items =>
      join ","
        (map (fun x => match x with
                       | JUndefined | JNull => ""
                       | _ => toString x
                       end) items)
  | JObj _ => "[object Object]"
  end.

(** Whether the conversion to a string returns.  An object parsed from
    JSON that has a [toString] property of its own has a non-callable
    one, and converting it throws a TypeError; so does converting an
    array that holds such an object. *)
Fixpoint convertible (v : JsValue) : bool :=
  match v with
  | JObj props => negb (existsb (fun p => String.eqb (fst p) "toString") props)
  | JArr items =>
      forallb (fun x => match x with
                        | JUndefined | JNull => true
                        | _ => convertible x
                        end) items
  | _ => true
  end.

(** Own-property lookup in an object literal: the first binding of the
    key, [undefined] when there is none. *)
Fixpoint lookup (k : string) (props : list (string * JsValue)) : JsValue :=
  match props with
  | [] => JUndefined
  | (k', v) :: rest => if String.eqb k' k then v else lookup k rest
  end.

Definition has_key (k : string) (props : list (string * JsValue)) : bool :=
  existsb (fun p => String.eqb (fst p) k) props.

(** [v[0]]: reading index 0.  Reading any property of [undefined] or
    [null] throws a TypeError, whose text is the engine's. *)
Definition index0 (type_error : JsValue -> string -> JsError) (v : JsValue)
  : JsError + JsValue :=
  match v with
  | JUndefined | JNull => inl (type_error v "0")
  | JArr items => inr (nth 0 items JUndefined)
  | JObj props => inr (lookup "0" props)
  | JStr (String c _) => inr (JStr (String c EmptyString))
  | JStr EmptyString | JBool _ | JNum _ => inr JUndefined
  end.

(** [v.k] for a key that is neither an index nor an inherited property
    name (the handlers only read [CNT]). *)
Definition member (type_error : JsValue -> string -> JsError) (v : JsValue)
    (k : string) : JsError + JsValue :=
  match v with
  | JUndefined | JNull => inl (type_error v k)
  | JObj props => inr (lookup k props)
  | JArr _ | JStr _ | JBool _ | JNum _ => inr JUndefined
  end.

End Js.
Export Js.

(** ** Collaborators and effects *)

(** A connection handle, as [snowflake.createConnection] returns it: it
    is identified by the parameter object it was created from. *)
Record Handle : Type := mkHandle { handle_params : JsValue }.

(** Every call a handler makes to a collaborator, with what came back. *)
Inductive Event : Type :=
| EvSend (body : JsValue)
| EvCreateConnection (connParams : JsValue)
| EvConnect (h : Handle) (failure : option JsError)
| EvExecute (h : Handle) (options : JsValue) (result : JsError + JsValue * JsValue)
| EvGetId (h : Handle) (id : JsValue)
| EvConsoleError (msg : string)
| EvConsoleDebug (msg : string).

(** What Express does with [res.send] once a response has gone out. *)
Inductive SendPolicy : Type :=
| SecondSendThrows (e : JsError)
| SecondSendAccepted.

(** The collaborators.  The driver answers as a function of everything
    that happened so far in the request: [createConnection] returns a
    handle or throws, [connect] and [execute] call back with or without
    an error.  A driver that never calls back leaves the handler
    suspended; such runs are outside the model.  The last two fields are
    the engine's TypeErrors: for reading a property of [undefined] or
    [null], and for converting to a string a value that is not
    [convertible]. *)
Record Runtime : Type := mkRuntime {
  send_policy : SendPolicy;
  drv_createConnection : list Event -> JsValue -> option JsError;
  drv_connect : list Event -> Handle -> option JsError;
  drv_execute : list Event -> Handle -> JsValue -> JsError + JsValue * JsValue;
  drv_getId : list Event -> Handle -> JsValue;
  type_error : JsValue -> string -> JsError;
  convert_error : JsValue -> JsError
}.

(** The state of one request: the calls made so far, and the bodies the
    response object accepted. *)
Record World : Type := mkWorld { trace : list Event; sent : list JsValue }.

Definition init_world : World := mkWorld [] [].

(** How a piece of a handler ends: it falls through with a value, it
    executes [return], or it throws. *)
Inductive Completion (A : Type) : Type :=
| Normal (a : A)
| Return
| Thrown (e : JsError).
Arguments Return {A}.
Arguments Thrown {A} e.

Definition Action (A : Type) : Type := Runtime -> World -> Completion A * World.

Definition ret {A} (a : A) : Action A := fun _ w => (Normal a, w).

Definition bind {A B} (m : Action A) (f : A -> Action B) : Action B :=
  fun rt w =>
    match m rt w with
    | (Normal a, w') => f a rt w'
    | (Return, w') => (Return, w')
    | (Thrown e, w') => (Thrown e, w')
    end.

Definition return_ {A} : Action A := fun _ w => (Return, w).

Definition throw {A} (e : JsError) : Action A := fun _ w => (Thrown e, w).

(** [try { body } catch (err) { handler err }] *)
Definition try_catch {A} (body : Action A) (handler : JsError -> Action A) : Action A :=
  fun rt w =>
    match body rt w with
    | (Thrown e, w') => handler e rt w'
    | r => r
    end.

Definition when_ (c : bool) (m : Action unit) : Action unit :=
  if c then m else ret tt.

Declare Scope action_scope.
Delimit Scope action_scope with action.
Notation "x <- m ;; k" := (bind m (fun x => k))
  (at level 61, m at next level, right associativity) : action_scope.
Notation "m ;; k" := (bind m (fun _ => k))
  (at level 61, right associativity) : action_scope.
Notation "'try_' b 'catch_' h" := (try_catch b h)
  (at level 60, b at level 200, h at level 200) : action_scope.
Local Open Scope action_scope.

Definition emit (ev : Event) (w : World) : World :=
  mkWorld (trace w ++ [ev]) (sent w).

Definition lift_sum {A} (r : JsError + A) : Action A :=
  match r with
  | inl e => throw e
  | inr a => ret a
  end.

(** [res.send(body)] *)
Definition res_send (body : JsValue) : Action unit :=
  fun rt w =>
    let w' := emit (EvSend body) w in
    match sent w, send_policy rt with
    | [], _ => (Normal tt, mkWorld (trace w') [body])
    | _ :: _, SecondSendAccepted => (Normal tt, mkWorld (trace w') (sent w ++ [body]))
    | _ :: _, SecondSendThrows e => (Thrown e, w')
    end.

Definition console_error (msg : string) : Action unit :=
  fun _ w => (Normal tt, emit (EvConsoleError msg) w).

Definition console_debug (msg : string) : Action unit :=
  fun _ w => (Normal tt, emit (EvConsoleDebug msg) w).

(** [snowflake.createConnection(connParams)]: the handle, unless the
    driver throws. *)
Definition createConnection (connParams : JsValue) : Action Handle :=
  fun rt w =>
    let w' := emit (EvCreateConnection connParams) w in
    match drv_createConnection rt (trace w) connParams with
    | Some e => (Thrown e, w')
    | None => (Normal (mkHandle connParams), w')
    end.

(** [await util.promisify(sfConn.connect)()] *)
Definition connect (sfConn : Handle) : Action unit :=
  fun rt w =>
    let r := drv_connect rt (trace w) sfConn in
    let w' := emit (EvConnect sfConn r) w in
    match r with
    | Some e => (Thrown e, w')
    | None => (Normal tt, w')
    end.

(** [sfConn.getId()] *)
Definition getId (sfConn : Handle) : Action JsValue :=
  fun rt w =>
    let id := drv_getId rt (trace w) sfConn in
    (Normal id, emit (EvGetId sfConn id) w).

(** [v.k] and [v[0]] as steps of a handler: they throw the engine's
    TypeError on [undefined] and [null]. *)
Definition get_member (v : JsValue) (k : string) : Action JsValue :=
  fun rt w => lift_sum (member (type_error rt) v k) rt w.

Definition get_index0 (v : JsValue) : Action JsValue :=
  fun rt w => lift_sum (index0 (type_error rt) v) rt w.

(** A template literal that interpolates [values], in this order, and
    reads [text] when every conversion returns: the first value that is
    not [convertible] throws the engine's TypeError. *)
Definition template (values : list JsValue) (text : string) : Action string :=
  fun rt w =>
    match find (fun v => negb (convertible v)) values with
    | Some v => (Thrown (convert_error rt v), w)
    | None => (Normal text, w)
    end.

(** [obj.k = v]: the binding is replaced where the key exists and added
    at the end where it does not. *)
Fixpoint assign (k : string) (v : JsValue) (props : list (string * JsValue))
  : list (string * JsValue) :=
  match props with
  | [] => [(k, v)]
  | (k', v') :: rest =>
      if String.eqb k' k then (k', v) :: rest else (k', v') :: assign k v rest
  end.

(** ** routes/snowflake.js *)

(** The object literal [{'status': 'unsuccessful', 'reason': reason}]. *)
Definition unsuccessful (reason : string) : JsValue :=
  JObj [("status", JStr "unsuccessful"); ("reason", JStr reason)].

(** validation function for snowflake connection parameters *)
Definition validateSnowflakeConnectionParams (account username password : JsValue)
  : JsValue :=
  if negb (truthy account) then unsuccessful "invalid account"
  else if negb (truthy username) then unsuccessful "invalid username"
  else if negb (truthy password) then unsuccessful "invalid password"
  else JUndefined.

(** The parameter object [getSnowflakeConnection] hands to the driver. *)
Definition connParams (account username password role warehouse : JsValue)
  : list (string * JsValue) :=
  let connParams :=
    [("account", account); ("username", username); ("password", password)] in
  let connParams := if truthy role then assign "role" role connParams else connParams in
  let connParams :=
    if truthy warehouse then assign "warehouse" warehouse connParams else connParams in
  connParams.

(** snowflake connection wrapper to handle optional parameters *)
Definition getSnowflakeConnection (account username password role warehouse : JsValue)
  : Action Handle :=
  sfConn <- createConnection (JObj (connParams account username password role warehouse)) ;;
  ret sfConn.

(** Async wrapper for executing snowflake queries: the promise rejects
    with the callback's error and resolves with [{stmt, rows}]. *)
Definition executeSnowflakeQuery (sfConn : Handle) (options : JsValue) : Action JsValue :=
  fun rt w =>
    let r := drv_execute rt (trace w) sfConn options in
    let w' := emit (EvExecute sfConn options r) w in
    match r with
    | inl err => (Thrown err, w')
    | inr (stmt, rows) => (Normal (JObj [("stmt", stmt); ("rows", rows)]), w')
    end.

(** [req.body], an object. *)
Definition Body : Type := list (string * JsValue).

(** [snowflakeRouter.post('/', ...)] *)
Definition post_root (body : Body) : Action unit :=
  let account := lookup "account" body in
  let username := lookup "username" body in
  let password := lookup "password" body in
  let role := lookup "role" body in
  let warehouse := lookup "warehouse" body in
  let configValidation := validateSnowflakeConnectionParams account username password in
  when_ (truthy configValidation) (res_send configValidation) ;;
  sfConn <- getSnowflakeConnection account username password role warehouse ;;
  (try_ connect sfConn
   catch_ (fun err =>
     let errMsg := "Error connecting to Snowflake: " ++ message err in
     console_error errMsg ;;
     res_send (unsuccessful errMsg))) ;;
  console_debug "Successfully connected to Snowflake" ;;
  id <- getId sfConn ;;
  res_send (JObj [("status", JStr "successful"); ("connectionId", id)]).

(** [snowflakeRouter.post('/query', ...)] *)
Definition post_query (body : Body) : Action unit :=
  let account := lookup "account" body in
  let username := lookup "username" body in
  let password := lookup "password" body in
  let role := lookup "role" body in
  let warehouse := lookup "warehouse" body in
  let query := lookup "query" body in
  let configValidation := validateSnowflakeConnectionParams account username password in
  when_ (truthy configValidation) (res_send configValidation) ;;
  let queryValidation :=
    if truthy query then JNull else unsuccessful "A query must be provided" in
  when_ (truthy queryValidation) (res_send queryValidation) ;;
  sfConn <- getSnowflakeConnection account username password role warehouse ;;
  queryResponse <-
    (try_ (connect sfConn ;;
           executeSnowflakeQuery sfConn (JObj [("sqlText", query)]))
     catch_ (fun err =>
       let errMsg := "Error executing Snowflake query: " ++ message err in
       console_error errMsg ;;
       res_send (unsuccessful errMsg) ;;
       return_)) ;;
  console_debug "Successfully queried Snowflake" ;;
  res_send (JObj [("status", JStr "successful"); ("response", queryResponse)]).

Definition numRowsInPreview : JsValue := JNum 100.

(** The array of the preview handler's field checks, with the [null]s
    filtered out. *)
Definition previewValidation (database schema relation : JsValue) : list JsValue :=
  filter truthy
    [ if truthy database then JNull else unsuccessful "A database must be provided";
      if truthy schema then JNull else unsuccessful "A schema must be provided";
      if truthy relation then JNull else unsuccessful "A relation must be provided" ].

Definition previewQuery (database schema relation : JsValue) : string :=
  "SELECT * FROM " ++ toString database ++ "." ++ toString schema ++ "."
    ++ toString relation ++ " LIMIT " ++ toString numRowsInPreview ++ ";".

Definition describeQuery (database schema relation : JsValue) : string :=
  "DESCRIBE TABLE " ++ toString database ++ "." ++ toString schema ++ "."
    ++ toString relation ++ ";".

Definition countQuery (database schema relation : JsValue) : string :=
  "SELECT COUNT(*) AS CNT FROM " ++ toString database ++ "." ++ toString schema ++ "."
    ++ toString relation ++ ";".

(** [snowflakeRouter.post('/relation-preview', ...)] *)
Definition post_relation_preview (body : Body) : Action unit :=
  let account := lookup "account" body in
  let username := lookup "username" body in
  let password := lookup "password" body in
  let database := lookup "database" body in
  let schema := lookup "schema" body in
  let relation := lookup "relation" body in
  let role := lookup "role" body in
  let warehouse := lookup "warehouse" body in
  let configValidation := validateSnowflakeConnectionParams account username password in
  when_ (truthy configValidation) (res_send configValidation) ;;
  let queryValidation := previewValidation database schema relation in
  when_ (0 <? List.length queryValidation)%nat (res_send (nth 0 queryValidation JUndefined)) ;;
  sfConn <- getSnowflakeConnection account username password role warehouse ;;
  dataPreviewResponse <-
    (try_ (connect sfConn ;;
           query <- template [database; schema; relation; numRowsInPreview]
                      (previewQuery database schema relation) ;;
           executeSnowflakeQuery sfConn (JObj [("sqlText", JStr query)]))
     catch_ (fun err =>
       let errMsg := "Error executing Snowflake query: " ++ message err in
       console_error errMsg ;;
       res_send (unsuccessful errMsg) ;;
       return_)) ;;
  columnDetailsResponse <-
    (try_ (query <- template [database; schema; relation]
                      (describeQuery database schema relation) ;;
           executeSnowflakeQuery sfConn (JObj [("sqlText", JStr query)]))
     catch_ (fun err =>
       let errMsg := "Error executing Snowflake query: " ++ message err in
       console_error errMsg ;;
       res_send (unsuccessful errMsg) ;;
       return_)) ;;
  rowcount <-
    (try_ (query <- template [database; schema; relation]
                      (countQuery database schema relation) ;;
           rowcountResponse <- executeSnowflakeQuery sfConn (JObj [("sqlText", JStr query)]) ;;
           rows <- get_member rowcountResponse "rows" ;;
           row <- get_index0 rows ;;
           get_member row "CNT")
     catch_ (fun err =>
       let errMsg := "Error executing Snowflake query: " ++ message err in
       console_error errMsg ;;
       res_send (unsuccessful errMsg) ;;
       return_)) ;;
  console_debug "Successfully queried Snowflake" ;;
  res_send (JObj [("status", JStr "successful");
                  ("preview", dataPreviewResponse);
                  ("columns", columnDetailsResponse);
                  ("rowcount", rowcount)]).

(** One request: the handler runs from the empty state. *)
Definition run (handler : Body -> Action unit) (rt : Runtime) (body : Body)
  : Completion unit * World :=
  handler body rt init_world.

(** What the client receives: the first body the response object took. *)
Definition response (r : Completion unit * World) : option JsValue :=
  hd_error (sent (snd r)).

Definition calls (r : Completion unit * World) : list Event := trace (snd r).


(** ** The API client of the test suite (unnamed/part_001)

    [apiMethod] wraps one [axios] call in a promise.  Its collaborators
    ([axios], [Shared.Utils.setCookie]) are parameters; the promise is
    seen through how it settles and through the calls made on the way. *)

Module ApiClient.

Inductive Call : Type :=
| CallAxios (config : JsValue) (result : JsError + JsValue)
| CallConsoleLog (args : list JsValue)
| CallSetCookie (cookie : JsValue) (failure : option JsError).

(** How [axios(config)] settles, whether [setCookie] throws, and the
    engine's TypeError. *)
Record Env : Type := mkEnv {
  axios : JsValue -> JsError + JsValue;
  setCookie : JsValue -> option JsError;
  env_type_error : JsValue -> string -> JsError
}.

Inductive Settled : Type :=
| Resolved (value : JsValue)
| Rejected (error : JsError).

(** ["/api/" + path]: for a string, the concatenation; for another
    value, with its text where the conversion returns. *)
Definition getAPIURL (path : JsValue) : string := "/api/" ++ toString path.

(** The [config] object of [apiMethod]. *)
Definition requestConfig (method path queryParams data contentType : JsValue) : JsValue :=
  JObj [("url", JStr (getAPIURL path));
        ("method", method);
        ("headers",
         JObj [("X-Requested-With", JStr "XMLHttpRequest");
               ("Content-Type",
                if truthy contentType then contentType else JStr "application/json")]);
        ("crossDomain", JBool true);
        ("params", queryParams);
        ("data", data);
        ("withCredentials", JBool true)].

(** [axios(config).then(...).catch(...)] inside [new Promise]: the
    [then] callback reads the cookie, logs it, stores it and resolves
    with [response.data]; whatever is rejected or thrown on the way
    reaches the [catch] callback, which rejects with it. *)
Definition apiMethod (env : Env) (method path queryParams data contentType : JsValue)
  : Settled * list Call :=
  let config := requestConfig method path queryParams data contentType in
  let result := axios env config in
  match result with
  | inl error => (Rejected error, [CallAxios config result])
  | inr response =>
      match member (env_type_error env) response "headers" with
      | inl error => (Rejected error, [CallAxios config result])
      | inr headers =>
          match member (env_type_error env) headers "set-cookie" with
          | inl error => (Rejected error, [CallAxios config result])
          | inr cookie =>
              let logged := [CallAxios config result;
                             CallConsoleLog [JStr "set cookie to "; cookie]] in
              match setCookie env cookie with
              | Some error =>
                  (Rejected error, (logged ++ [CallSetCookie cookie (Some error)])%list)
              | None =>
                  match member (env_type_error env) response "data" with
                  | inl error =>
                      (Rejected error, (logged ++ [CallSetCookie cookie None])%list)
                  | inr value =>
                      (Resolved value, (logged ++ [CallSetCookie cookie None])%list)
                  end
              end
          end
      end
  end.

Definition apiPost (env : Env) (path queryParams data contentType : JsValue)
  : Settled * list Call :=
  apiMethod env (JStr "post") path queryParams data contentType.

Definition apiPostJson (env : Env) (path queryParams data headers : JsValue)
  : Settled * list Call :=
  apiPost env path queryParams data (JStr "application/json").

Definition is_axios (c : Call) : bool :=
  match c with CallAxios _ _ => true | _ => false end.


(** A server that answers every request with [data] and the cookie
    [cookie], against a cookie store that works. *)
Definition answering (data cookie : JsValue) : Env :=
  mkEnv
    (fun _ => inr (JObj [("data", data); ("headers", JObj [("set-cookie", cookie)])]))
    (fun _ => None)
    (fun v k => mkError ("Cannot read property '" ++ k ++ "' of " ++ toString v)).

End ApiClient.

(** ** Vocabulary of the properties *)

(** The request passes [validateSnowflakeConnectionParams]. *)
Definition credentials_present (body : Body) : bool :=
  truthy (lookup "account" body) && truthy (lookup "username" body)
    && truthy (lookup "password" body).

Definition is_send (ev : Event) : bool :=
  match ev with EvSend _ => true | _ => false end.

(** A call into the snowflake driver. *)
Definition is_driver_call (ev : Event) : bool :=
  match ev with
  | EvCreateConnection _ | EvConnect _ _ | EvExecute _ _ _ | EvGetId _ _ => true
  | EvSend _ | EvConsoleError _ | EvConsoleDebug _ => false
  end.

(** The event is a connect or an execute that failed with [e]. *)
Definition failed_with (e : JsError) (ev : Event) : Prop :=
  match ev with
  | EvConnect _ (Some e') => e' = e
  | EvExecute _ _ (inl e') => e' = e
  | _ => False
  end.

(** The event, when it is a call on a connection, is on [h]. *)
Definition on_handle (h : Handle) (ev : Event) : Prop :=
  match ev with
  | EvConnect h' _ | EvExecute h' _ _ | EvGetId h' _ => h' = h
  | _ => True
  end.

(** The option objects of the execute calls, in order. *)
Fixpoint executed (tr : list Event) : list JsValue :=
  match tr with
  | [] => []
  | EvExecute _ options _ :: rest => options :: executed rest
  | _ :: rest => executed rest
  end.

(** The preview request names its relation in full. *)
Definition relation_named (body : Body) : bool :=
  truthy (lookup "database" body) && truthy (lookup "schema" body)
    && truthy (lookup "relation" body).

Definition is_createConnection (ev : Event) : bool :=
  match ev with EvCreateConnection _ => true | _ => false end.

Definition is_connect (ev : Event) : bool :=
  match ev with EvConnect _ _ => true | _ => false end.

(** [v.status], where it can be read. *)
Definition status_of (v : JsValue) : JsValue :=
  match v with
  | JObj props => lookup "status" props
  | _ => JUndefined
  end.

(** The body is one of the two shapes of an ApiResponse. *)
Definition has_status (v : JsValue) : Prop :=
  status_of v = JStr "successful" \/ status_of v = JStr "unsuccessful".

(** The three routes of [snowflakeRouter]. *)
Definition handlers : list (Body -> Action unit) :=
  [post_root; post_query; post_relation_preview].

(** An optional connection parameter: present when its value is truthy. *)
Definition optional (k : string) (v : JsValue) : list (string * JsValue) :=
  if truthy v then [(k, v)] else [].

(** [body] with the property [k] bound to [v], and without it. *)
Definition with_field (k : string) (v : JsValue) (body : Body) : Body :=
  (k, v) :: body.

Definition without_field (k : string) (body : Body) : Body :=
  filter (fun p => negb (String.eqb (fst p) k)) body.

(** ** Sample collaborators and requests *)

Definition headers_sent : JsError :=
  mkError "Cannot set headers after they are sent to the client".

Definition v8_type_error (v : JsValue) (k : string) : JsError :=
  mkError ("Cannot read property '" ++ k ++ "' of " ++ toString v).

Definition v8_convert_error (v : JsValue) : JsError :=
  mkError "Cannot convert object to primitive value".

(** Express as it is (a second [res.send] throws), and a driver that
    accepts any parameters, connects, assigns the id "123" and answers
    every statement with the rows [rows]. *)
Definition express_driver (rows : JsValue) : Runtime :=
  mkRuntime (SecondSendThrows headers_sent)
    (fun _ _ => None)
    (fun _ _ => None)
    (fun _ _ _ => inr (JStr "stmt", rows))
    (fun _ _ => JStr "123")
    v8_type_error
    v8_convert_error.

(** The same with a driver whose connect fails. *)
Definition express_no_connect (msg : string) : Runtime :=
  mkRuntime (SecondSendThrows headers_sent)
    (fun _ _ => None)
    (fun _ _ => Some (mkError msg))
    (fun _ _ _ => inr (JStr "stmt", JArr []))
    (fun _ _ => JStr "123")
    v8_type_error
    v8_convert_error.

(** A driver that connects and fails every statement. *)
Definition express_no_execute (msg : string) : Runtime :=
  mkRuntime (SecondSendThrows headers_sent)
    (fun _ _ => None)
    (fun _ _ => None)
    (fun _ _ _ => inl (mkError msg))
    (fun _ _ => JStr "123")
    v8_type_error
    v8_convert_error.

(** A response object that accepts repeated sends. *)
Definition lenient_no_connect (msg : string) : Runtime :=
  mkRuntime SecondSendAccepted
    (fun _ _ => None)
    (fun _ _ => Some (mkError msg))
    (fun _ _ _ => inr (JStr "stmt", JArr []))
    (fun _ _ => JStr "123")
    v8_type_error
    v8_convert_error.

(** A driver that connects and answers the n-th statement of the request
    with the n-th entry of [answers]. *)
Definition scripted_driver (answers : list (JsError + JsValue * JsValue)) : Runtime :=
  mkRuntime (SecondSendThrows headers_sent)
    (fun _ _ => None)
    (fun _ _ => None)
    (fun tr _ _ => nth (List.length (executed tr)) answers (inl (mkError "no such statement")))
    (fun _ _ => JStr "123")
    v8_type_error
    v8_convert_error.

(** A driver that checks its required parameters, in the manner of the
    snowflake-sdk: [createConnection] throws when account, username or
    password is absent or is not a string.  Otherwise it connects and
    answers every statement with [rows]. *)
Definition check_parameter (missing invalid : string) (v : JsValue) : option JsError :=
  match v with
  | JUndefined | JNull => Some (mkError missing)
  | JStr _ => None
  | _ => Some (mkError invalid)
  end.

Definition check_parameters (connParams : JsValue) : option JsError :=
  match connParams with
  | JObj props =>
      match check_parameter "An account must be specified."
              "Invalid account. The specified value must be a string."
              (lookup "account" props) with
      | Some e => Some e
      | None =>
          match check_parameter "A user name must be specified."
                  "Invalid username. The specified value must be a string."
                  (lookup "username" props) with
          | Some e => Some e
          | None =>
              check_parameter "A password must be specified."
                "Invalid password. The specified value must be a string."
                (lookup "password" props)
          end
      end
  | _ => Some (mkError "Connection options must be specified.")
  end.

Definition checking_driver (rows : JsValue) : Runtime :=
  mkRuntime (SecondSendThrows headers_sent)
    (fun _ connParams => check_parameters connParams)
    (fun _ _ => None)
    (fun _ _ _ => inr (JStr "stmt", rows))
    (fun _ _ => JStr "123")
    v8_type_error
    v8_convert_error.

(** A driver that refuses every parameter object. *)
Definition rejecting_driver (msg : string) : Runtime :=
  mkRuntime (SecondSendThrows headers_sent)
    (fun _ _ => Some (mkError msg))
    (fun _ _ => None)
    (fun _ _ _ => inr (JStr "stmt", JArr []))
    (fun _ _ => JStr "123")
    v8_type_error
    v8_convert_error.

Definition credentials : Body :=
  [("account", JStr "acct1"); ("username", JStr "u"); ("password", JStr "p")].

Definition query_body : Body := (credentials ++ [("query", JStr "SHOW DATABASES;")])%list.

Definition preview_body : Body :=
  (credentials ++ [("database", JStr "DB"); ("schema", JStr "SC"); ("relation", JStr "T")])%list.

(** ** Properties *)

Unset Implicit Arguments.

(** *** JavaScript values *)

Example toString_100 : toString (JNum 100) = "100".
Proof. reflexivity. Qed.

Example toString_array :
  toString (JArr [JNum 1; JNull; JStr "a"; JArr [JBool true; JNum (-2)]]) = "1,,a,true,-2".
Proof. reflexivity. Qed.

Lemma lookup_with_field_same k v body : lookup k (with_field k v body) = v.
Proof. unfold with_field; simpl. now rewrite String.eqb_refl. Qed.

Lemma lookup_with_field_other k k' v body :
  String.eqb k k' = false -> lookup k' (with_field k v body) = lookup k' body.
Proof. intros H. unfold with_field; simpl. now rewrite H. Qed.

Lemma lookup_without_field_same k body : lookup k (without_field k body) = JUndefined.
Proof.
  induction body as [|[k0 v0] rest IH]; simpl; [reflexivity|].
  destruct (String.eqb k0 k) eqn:E; simpl; [exact IH|].
  now rewrite E.
Qed.

Lemma lookup_without_field_other k k' body :
  String.eqb k k' = false -> lookup k' (without_field k body) = lookup k' body.
Proof.
  intros H. induction body as [|[k0 v0] rest IH]; simpl; [reflexivity|].
  destruct (String.eqb k0 k) eqn:E; simpl.
  - apply String.eqb_eq in E; subst k0. now rewrite H.
  - now rewrite IH.
Qed.

(** *** The validators *)

Lemma validate_truthy account username password :
  truthy (validateSnowflakeConnectionParams account username password)
  = negb (truthy account && truthy username && truthy password).
Proof.
  unfold validateSnowflakeConnectionParams.
  destruct (truthy account), (truthy username), (truthy password); reflexivity.
Qed.

Lemma validate_present body :
  credentials_present body = true ->
  truthy (validateSnowflakeConnectionParams (lookup "account" body)
            (lookup "username" body) (lookup "password" body)) = false.
Proof.
  unfold credentials_present. intros H. now rewrite validate_truthy, H.
Qed.

Lemma previewValidation_nonempty database schema relation :
  (0 <? List.length (previewValidation database schema relation))%nat
  = negb (truthy database && truthy schema && truthy relation).
Proof.
  unfold previewValidation.
  destruct (truthy database), (truthy schema), (truthy relation); reflexivity.
Qed.

Lemma member_object te props k : member te (JObj props) k = inr (lookup k props).
Proof. reflexivity. Qed.

Lemma previewValidation_named body :
  relation_named body = true ->
  (0 <? List.length (previewValidation (lookup "database" body) (lookup "schema" body)
                       (lookup "relation" body)))%nat = false.
Proof.
  unfold relation_named. intros H. now rewrite previewValidation_nonempty, H.
Qed.

(** *** Running a handler symbolically *)

(** The handlers branch on the outcome of the validations, on the
    response policy, on the driver's answers and on whether the
    identifiers of a preview convert to text: [run_cases] unfolds a run
    and splits on each of them as it comes up. *)
Local Arguments String.append : simpl never.
Local Arguments index0 : simpl never.
Local Arguments member : simpl never.

Ltac unfold_run :=
  unfold response, calls, run, post_root, post_query, post_relation_preview,
    getSnowflakeConnection, createConnection, connect, getId,
    executeSnowflakeQuery, get_member, get_index0, lift_sum, console_error,
    console_debug, res_send, when_, try_catch, bind, ret, return_, throw, emit,
    template, init_world.

Ltac split_case :=
  match goal with
  | |- context [truthy (validateSnowflakeConnectionParams ?a ?u ?p)] =>
      let E := fresh "V" in
      destruct (truthy (validateSnowflakeConnectionParams a u p)) eqn:E
  | |- context [Nat.ltb 0 (List.length (previewValidation ?d ?s ?r))] =>
      let E := fresh "Q" in
      destruct (Nat.ltb 0 (List.length (previewValidation d s r))) eqn:E
  | |- context [truthy (lookup ?k ?b)] =>
      let E := fresh "T" in destruct (truthy (lookup k b)) eqn:E
  | |- context [truthy ?x] =>
      is_var x; let E := fresh "T" in destruct (truthy x) eqn:E
  | |- context [send_policy ?rt] =>
      let E := fresh "P" in destruct (send_policy rt) eqn:E
  | |- context [drv_createConnection ?rt ?t ?p] =>
      let E := fresh "B" in destruct (drv_createConnection rt t p) eqn:E
  | |- context [convertible (lookup ?k ?b)] =>
      let E := fresh "K" in destruct (convertible (lookup k b)) eqn:E
  | |- context [convertible ?x] =>
      is_var x; let E := fresh "K" in destruct (convertible x) eqn:E
  | |- context [drv_connect ?rt ?t ?h] =>
      let E := fresh "C" in destruct (drv_connect rt t h) eqn:E
  | |- context [drv_execute ?rt ?t ?h ?o] =>
      let E := fresh "X" in destruct (drv_execute rt t h o) as [?|[? ?]] eqn:E
  | |- context [member ?te (JObj ?props) ?k] => rewrite (member_object te props k)
  | |- context [index0 ?te ?v] =>
      let E := fresh "I" in destruct (index0 te v) eqn:E
  | |- context [member ?te ?v ?k] =>
      let E := fresh "M" in destruct (member te v k) eqn:E
  end.

(** The unfolded run repeats the lookups of the body's fields and its
    string literals at every call; [shrink] gives each a local name,
    which keeps the case analysis small. *)
Ltac shrink :=
  repeat match goal with
         | |- context [lookup ?k ?b] =>
             is_var b; let x := fresh "field" in set (x := lookup k b) in *
         | |- context [String ?c ?s] =>
             let x := fresh "text" in set (x := String c s) in *
         end.

Ltac analyse := shrink; simpl; repeat (split_case; simpl).

Ltac run_cases := unfold_run; analyse.

(** [freeze r] turns the local definition [r := run ...] into a variable
    with the equation [run ... = r] in front of the goal, so that only
    one copy of the run is analysed; [thaw] puts the result back once
    the run is known. *)
Ltac freeze r :=
  let b := eval unfold r in r in
  let H := fresh "Hrun" in
  assert (H : b = r) by reflexivity; clearbody r; revert H.

Ltac thaw :=
  let H := fresh "Hrun" in
  intros H;
  match type of H with _ = ?r => subst r end;
  unfold calls, response; simpl.

(** What each handler answers when a validation fails: the validation
    error is the first body handed to [res.send], so it is the response. *)
Lemma post_root_invalid_response rt body :
  let v := validateSnowflakeConnectionParams (lookup "account" body)
             (lookup "username" body) (lookup "password" body) in
  truthy v = true -> response (run post_root rt body) = Some v.
Proof.
  intros v H. subst v. unfold_run. rewrite H. analyse; reflexivity.
Qed.

Lemma post_query_invalid_response rt body :
  let v := validateSnowflakeConnectionParams (lookup "account" body)
             (lookup "username" body) (lookup "password" body) in
  truthy v = true -> response (run post_query rt body) = Some v.
Proof.
  intros v H. subst v. unfold_run. rewrite H. analyse; reflexivity.
Qed.

Lemma post_query_missing_text_response rt body :
  credentials_present body = true ->
  truthy (lookup "query" body) = false ->
  response (run post_query rt body)
  = Some (unsuccessful "A query must be provided").
Proof.
  intros H%validate_present Hq. unfold_run. rewrite H, Hq. analyse; reflexivity.
Qed.

Lemma post_relation_preview_invalid_response rt body :
  let v := validateSnowflakeConnectionParams (lookup "account" body)
             (lookup "username" body) (lookup "password" body) in
  truthy v = true -> response (run post_relation_preview rt body) = Some v.
Proof.
  intros v H. subst v. unfold_run. rewrite H. analyse; reflexivity.
Qed.

Lemma post_relation_preview_missing_field_response rt body :
  let queryValidation := previewValidation (lookup "database" body)
                           (lookup "schema" body) (lookup "relation" body) in
  credentials_present body = true ->
  (0 <? List.length queryValidation)%nat = true ->
  response (run post_relation_preview rt body) = Some (nth 0 queryValidation JUndefined).
Proof.
  intros qv H%validate_present Hq. subst qv. unfold_run. rewrite H, Hq. analyse; reflexivity.
Qed.

(** *** C1: the connection-params validator *)

(** C1.  [validateSnowflakeConnectionParams] returns exactly
    [{status: "unsuccessful", reason: "invalid <field>"}] for the first
    falsy field in the order account, username, password, whatever the
    later fields are, and [undefined] when the three are truthy; in each
    of the three handlers a validation error is the response of the
    request. *)
Theorem validate_connection_params_first_failing_field :
  (forall account username password,
     (truthy account = false ->
      validateSnowflakeConnectionParams account username password
      = JObj [("status", JStr "unsuccessful"); ("reason", JStr "invalid account")]) /\
     (truthy account = true -> truthy username = false ->
      validateSnowflakeConnectionParams account username password
      = JObj [("status", JStr "unsuccessful"); ("reason", JStr "invalid username")]) /\
     (truthy account = true -> truthy username = true -> truthy password = false ->
      validateSnowflakeConnectionParams account username password
      = JObj [("status", JStr "unsuccessful"); ("reason", JStr "invalid password")]) /\
     (truthy account = true -> truthy username = true -> truthy password = true ->
      validateSnowflakeConnectionParams account username password = JUndefined)) /\
  (forall rt body,
     let v := validateSnowflakeConnectionParams (lookup "account" body)
                (lookup "username" body) (lookup "password" body) in
     credentials_present body = false ->
     response (run post_root rt body) = Some v /\
     response (run post_query rt body) = Some v /\
     response (run post_relation_preview rt body) = Some v).
Proof.
  split.
  - intros account username password.
    unfold validateSnowflakeConnectionParams, unsuccessful.
    repeat split; intros; repeat match goal with H : truthy _ = _ |- _ => rewrite H; clear H end;
      reflexivity.
  - intros rt body v H.
    assert (Hv : truthy v = true).
    { subst v. rewrite validate_truthy. unfold credentials_present in H. now rewrite H. }
    repeat split.
    + now apply post_root_invalid_response.
    + now apply post_query_invalid_response.
    + now apply post_relation_preview_invalid_response.
Qed.

(** A request without username and password, and with an empty account. *)
Lemma validate_connection_params_first_failing_field_witness :
  validateSnowflakeConnectionParams (JStr "") JUndefined JUndefined
  = JObj [("status", JStr "unsuccessful"); ("reason", JStr "invalid account")]
  /\ response (run post_query (express_driver (JArr [])) [("account", JStr "")])
     = Some (JObj [("status", JStr "unsuccessful"); ("reason", JStr "invalid account")]).
Proof.
  split.
  - apply (proj1 validate_connection_params_first_failing_field
             (JStr "") JUndefined JUndefined).
    reflexivity.
  - apply (proj2 validate_connection_params_first_failing_field
             (express_driver (JArr [])) [("account", JStr "")]).
    reflexivity.
Defined.

(** *** C4: the connection builder *)

(** C4.  The parameter object [getSnowflakeConnection] gives the driver
    always holds account, username and password, as passed; it holds
    role (warehouse) exactly when the argument is truthy; and an empty
    string there gives the same object as [undefined].  This object is
    what [createConnection] receives, and the handle made from it comes
    back unless the driver throws there. *)
Theorem connection_params_required_and_optional_fields :
  forall account username password role warehouse,
    let params := connParams account username password role warehouse in
    params = ([("account", account); ("username", username); ("password", password)]
               ++ optional "role" role ++ optional "warehouse" warehouse)%list /\
    has_key "account" params = true /\
    has_key "username" params = true /\
    has_key "password" params = true /\
    has_key "role" params = truthy role /\
    has_key "warehouse" params = truthy warehouse /\
    connParams account username password (JStr "") warehouse
    = connParams account username password JUndefined warehouse /\
    connParams account username password role (JStr "")
    = connParams account username password role JUndefined /\
    (forall rt w,
       getSnowflakeConnection account username password role warehouse rt w
       = (match drv_createConnection rt (trace w) (JObj params) with
          | Some e => Thrown e
          | None => Normal (mkHandle (JObj params))
          end,
          mkWorld (trace w ++ [EvCreateConnection (JObj params)]) (sent w))).
Proof.
  intros account username password role warehouse params.
  assert (Hrun : forall rt w,
             getSnowflakeConnection account username password role warehouse rt w
             = (match drv_createConnection rt (trace w) (JObj params) with
                | Some e => Thrown e
                | None => Normal (mkHandle (JObj params))
                end,
                mkWorld (trace w ++ [EvCreateConnection (JObj params)]) (sent w))).
  { intros rt w.
    unfold getSnowflakeConnection, createConnection, bind, ret, emit. fold params.
    destruct (drv_createConnection rt (trace w) (JObj params)); reflexivity. }
  revert Hrun. generalize (getSnowflakeConnection account username password role warehouse).
  subst params. unfold connParams, optional.
  destruct (truthy role), (truthy warehouse); simpl; intros a Hrun;
    repeat split; try reflexivity; exact Hrun.
Qed.

(** *** C2: failures of the query handler *)

(** Splits a hypothesis [In ev l] on a trace that is known. *)
Ltac pick_event H :=
  simpl in H;
  repeat match type of H with
         | _ \/ _ => destruct H as [H|H]
         | False => contradiction
         end.

(** The part of a known trace before its last [n] calls. *)
Ltac trace_before n :=
  match goal with
  | |- exists _, ?l = _ /\ _ => exists (firstn (List.length l - n) l); simpl
  | |- exists _, ?l = _ => exists (firstn (List.length l - n) l); simpl
  end.

(** After a failure, for every /query request.  When the connect step or
    the execute step fails with [e], the failing call is followed by the
    log line
    and by [res.send({status: "unsuccessful", reason: "Error executing
    Snowflake query: " + e.message})] and by nothing else: no driver call
    comes after the failure, and no statement is executed after a failed
    connect.  For a request that passed validation this is the response
    and the handler returns. *)
Theorem query_failure_short_circuits :
  forall rt body failing e,
    let r := run post_query rt body in
    let errMsg := "Error executing Snowflake query: " ++ message e in
    let reply := JObj [("status", JStr "unsuccessful"); ("reason", JStr errMsg)] in
    In failing (calls r) ->
    failed_with e failing ->
    exists before,
      calls r = (before ++ [failing; EvConsoleError errMsg; EvSend reply])%list /\
      (forall h, failing = EvConnect h (Some e) -> executed (calls r) = []) /\
      (credentials_present body = true -> truthy (lookup "query" body) = true ->
       fst r = Return /\ sent (snd r) = [reply]) /\
      ((fst r = Return /\ last (sent (snd r)) JUndefined = reply) \/
       (exists e', send_policy rt = SecondSendThrows e' /\ fst r = Thrown e' /\
                   credentials_present body && truthy (lookup "query" body) = false)).
Proof.
  intros rt body failing e r errMsg reply. subst errMsg reply.
  unfold credentials_present. rewrite <- (negb_involutive (_ && _ && _)).
  rewrite <- validate_truthy.
  freeze r. run_cases; thaw; rewrite ?P; intros Hin Hf; pick_event Hin; subst failing;
    simpl in Hf; try contradiction; subst; trace_before 3;
    (split; [reflexivity|split; [intros; try discriminate; reflexivity|]]);
    (split; [intros; try discriminate; split; reflexivity|]);
    first [ left; split; reflexivity
          | right; eexists; repeat split; reflexivity ].
Qed.

(** C2.  A /query request without query text, against a driver whose
    connect fails: the handler has sent [{status: "unsuccessful",
    reason: "A query must be provided"}] and, for want of a [return]
    there, reaches the [catch], whose [res.send] is a second send.  The
    response is the validation error, not the "Error executing Snowflake
    query" body; with Express the handler ends by the exception of the
    second send, not by [return]. *)
Theorem query_failure_after_missing_text :
  let missing := JObj [("status", JStr "unsuccessful");
                       ("reason", JStr "A query must be provided")] in
  let reply := JObj [("status", JStr "unsuccessful");
                     ("reason", JStr "Error executing Snowflake query: Network error")] in
  let params := JObj [("account", JStr "acct1"); ("username", JStr "u");
                      ("password", JStr "p")] in
  let attempt :=
    [EvSend missing;
     EvCreateConnection params;
     EvConnect (mkHandle params) (Some (mkError "Network error"));
     EvConsoleError "Error executing Snowflake query: Network error";
     EvSend reply] in
  run post_query (express_no_connect "Network error") credentials
  = (Thrown headers_sent, mkWorld attempt [missing])
  /\ response (run post_query (express_no_connect "Network error") credentials)
     = Some missing
  /\ run post_query (lenient_no_connect "Network error") credentials
     = (Return, mkWorld attempt [missing; reply])
  /\ response (run post_query (lenient_no_connect "Network error") credentials)
     = Some missing.
Proof. repeat split. Qed.

(** A valid request whose statement the driver rejects. *)
Lemma query_failure_short_circuits_witness :
  let rt := express_no_execute "SQL compilation error" in
  let reply := JObj [("status", JStr "unsuccessful");
                     ("reason", JStr "Error executing Snowflake query: SQL compilation error")] in
  run post_query rt query_body
  = (Return,
     mkWorld
       [EvCreateConnection (JObj credentials);
        EvConnect (mkHandle (JObj credentials)) None;
        EvExecute (mkHandle (JObj credentials)) (JObj [("sqlText", JStr "SHOW DATABASES;")])
          (inl (mkError "SQL compilation error"));
        EvConsoleError "Error executing Snowflake query: SQL compilation error";
        EvSend reply]
       [reply])
  /\ exists before,
       calls (run post_query rt query_body)
       = (before ++ [EvExecute (mkHandle (JObj credentials))
                       (JObj [("sqlText", JStr "SHOW DATABASES;")])
                       (inl (mkError "SQL compilation error"));
                     EvConsoleError "Error executing Snowflake query: SQL compilation error";
                     EvSend reply])%list.
Proof.
  intros rt reply. split; [reflexivity|].
  destruct (query_failure_short_circuits rt query_body
              (EvExecute (mkHandle (JObj credentials))
                 (JObj [("sqlText", JStr "SHOW DATABASES;")])
                 (inl (mkError "SQL compilation error")))
              (mkError "SQL compilation error")) as [before [H _]].
  - simpl. tauto.
  - reflexivity.
  - exists before. exact H.
Defined.

(** *** C3: the preview handler on a valid request *)

(** The statements of the preview for identifiers that are strings. *)
Lemma preview_statements_of_strings (database schema relation : string) :
  previewQuery (JStr database) (JStr schema) (JStr relation)
  = "SELECT * FROM " ++ database ++ "." ++ schema ++ "." ++ relation ++ " LIMIT 100;" /\
  describeQuery (JStr database) (JStr schema) (JStr relation)
  = "DESCRIBE TABLE " ++ database ++ "." ++ schema ++ "." ++ relation ++ ";" /\
  countQuery (JStr database) (JStr schema) (JStr relation)
  = "SELECT COUNT(*) AS CNT FROM " ++ database ++ "." ++ schema ++ "." ++ relation ++ ";".
Proof. repeat split. Qed.

(** C3.  On a preview request with credentials whose database, schema
    and relation are non-empty strings, once the driver has returned the
    handle, the handler connects it and runs on it, each after the
    answer to the one before, [SELECT * FROM db.schema.relation LIMIT
    100;], [DESCRIBE TABLE db.schema.relation;] and [SELECT COUNT( * ) AS
    CNT FROM db.schema.relation;].  The first step that fails, the
    connect included, is followed only by the log line and the response
    [{status: "unsuccessful", reason: "Error executing Snowflake query: "
    + message}], and the handler returns; so does the TypeError of
    reading the row count.  When the three statements have succeeded and
    the row count is read, the response is [{status: "successful",
    preview, columns, rowcount}] with the answers to the first two
    statements and the [CNT] of the first row of the third. *)
Theorem preview_runs_three_statements_in_order :
  forall rt body database schema relation,
    credentials_present body = true ->
    relation_named body = true ->
    lookup "database" body = JStr database ->
    lookup "schema" body = JStr schema ->
    lookup "relation" body = JStr relation ->
    let params := JObj (connParams (lookup "account" body) (lookup "username" body)
                          (lookup "password" body) (lookup "role" body)
                          (lookup "warehouse" body)) in
    let sfConn := mkHandle params in
    drv_createConnection rt [] params = None ->
    let r := run post_relation_preview rt body in
    let q1 := JObj [("sqlText",
                     JStr ("SELECT * FROM " ++ database ++ "." ++ schema ++ "." ++ relation
                             ++ " LIMIT 100;"))] in
    let q2 := JObj [("sqlText",
                     JStr ("DESCRIBE TABLE " ++ database ++ "." ++ schema ++ "." ++ relation
                             ++ ";"))] in
    let q3 := JObj [("sqlText",
                     JStr ("SELECT COUNT(*) AS CNT FROM " ++ database ++ "." ++ schema ++ "."
                             ++ relation ++ ";"))] in
    let t0 := [EvCreateConnection params] in
    let c := drv_connect rt t0 sfConn in
    let t1 := (t0 ++ [EvConnect sfConn c])%list in
    let x1 := drv_execute rt t1 sfConn q1 in
    let t2 := (t1 ++ [EvExecute sfConn q1 x1])%list in
    let x2 := drv_execute rt t2 sfConn q2 in
    let t3 := (t2 ++ [EvExecute sfConn q2 x2])%list in
    let x3 := drv_execute rt t3 sfConn q3 in
    let t4 := (t3 ++ [EvExecute sfConn q3 x3])%list in
    let fails := fun (tr : list Event) (e : JsError) =>
      let errMsg := "Error executing Snowflake query: " ++ message e in
      let reply := JObj [("status", JStr "unsuccessful"); ("reason", JStr errMsg)] in
      r = (Return, mkWorld (tr ++ [EvConsoleError errMsg; EvSend reply]) [reply]) in
    match c with
    | Some e => fails t1 e
    | None =>
        match x1 with
        | inl e => fails t2 e
        | inr (stmt1, rows1) =>
            match x2 with
            | inl e => fails t3 e
            | inr (stmt2, rows2) =>
                match x3 with
                | inl e => fails t4 e
                | inr (stmt3, rows3) =>
                    match index0 (type_error rt) rows3 with
                    | inl e => fails t4 e
                    | inr row =>
                        match member (type_error rt) row "CNT" with
                        | inl e => fails t4 e
                        | inr rowcount =>
                            let success :=
                              JObj [("status", JStr "successful");
                                    ("preview", JObj [("stmt", stmt1); ("rows", rows1)]);
                                    ("columns", JObj [("stmt", stmt2); ("rows", rows2)]);
                                    ("rowcount", rowcount)] in
                            r = (Normal tt,
                                 mkWorld
                                   (t4 ++ [EvConsoleDebug "Successfully queried Snowflake";
                                           EvSend success])
                                   [success])
                        end
                    end
                end
            end
        end
    end.
Proof.
  intros rt body database schema relation Hc Hn Hd Hs Hr params sfConn HB r
         q1 q2 q3 t0 c t1 x1 t2 x2 t3 x3 t4 fails.
  subst q1 q2 q3 t0 c t1 x1 t2 x2 t3 x3 t4 fails params sfConn.
  apply validate_present in Hc. apply previewValidation_named in Hn.
  destruct (preview_statements_of_strings database schema relation) as (E1 & E2 & E3).
  freeze r. unfold_run. simpl. rewrite Hc, Hn. simpl.
  rewrite HB, Hd, Hs, Hr, E1, E2, E3. analyse; intros <-; reflexivity.
Qed.

(** A valid request against a driver that answers every statement. *)
Lemma preview_runs_three_statements_in_order_witness :
  let rt := express_driver (JArr [JObj [("CNT", JNum 5)]]) in
  let sfConn := mkHandle (JObj credentials) in
  let answer := (JStr "stmt", JArr [JObj [("CNT", JNum 5)]]) in
  let success :=
    JObj [("status", JStr "successful");
          ("preview", JObj [("stmt", JStr "stmt"); ("rows", JArr [JObj [("CNT", JNum 5)]])]);
          ("columns", JObj [("stmt", JStr "stmt"); ("rows", JArr [JObj [("CNT", JNum 5)]])]);
          ("rowcount", JNum 5)] in
  run post_relation_preview rt preview_body
  = (Normal tt,
     mkWorld
       [EvCreateConnection (JObj credentials);
        EvConnect sfConn None;
        EvExecute sfConn (JObj [("sqlText", JStr "SELECT * FROM DB.SC.T LIMIT 100;")])
          (inr answer);
        EvExecute sfConn (JObj [("sqlText", JStr "DESCRIBE TABLE DB.SC.T;")]) (inr answer);
        EvExecute sfConn (JObj [("sqlText", JStr "SELECT COUNT(*) AS CNT FROM DB.SC.T;")])
          (inr answer);
        EvConsoleDebug "Successfully queried Snowflake";
        EvSend success]
       [success]).
Proof.
  exact (preview_runs_three_statements_in_order
           (express_driver (JArr [JObj [("CNT", JNum 5)]])) preview_body "DB" "SC" "T"
           eq_refl eq_refl eq_refl eq_refl eq_refl eq_refl).
Defined.

(** The preview of a relation whose sample has 2 rows, whose description
    has 3 rows and whose count is 5. *)
Example preview_end_to_end :
  let sample := JArr [JObj [("A", JNum 1)]; JObj [("A", JNum 2)]] in
  let description := JArr [JObj [("name", JStr "A")]; JObj [("name", JStr "B")];
                           JObj [("name", JStr "C")]] in
  let rt := scripted_driver [inr (JStr "s1", sample); inr (JStr "s2", description);
                             inr (JStr "s3", JArr [JObj [("CNT", JNum 5)]])] in
  response (run post_relation_preview rt preview_body)
  = Some (JObj [("status", JStr "successful");
                ("preview", JObj [("stmt", JStr "s1"); ("rows", sample)]);
                ("columns", JObj [("stmt", JStr "s2"); ("rows", description)]);
                ("rowcount", JNum 5)]).
Proof. reflexivity. Qed.

(** Opening a connection with a driver that connects and assigns "123". *)
Example open_connection_end_to_end :
  response (run post_root (express_driver (JArr [])) credentials)
  = Some (JObj [("status", JStr "successful"); ("connectionId", JStr "123")]).
Proof. reflexivity. Qed.

(** *** C5: validation failures in the query and preview handlers *)

(** C5.  The /query and /relation-preview handlers do not stop at a
    validation failure.  On a /query request without account, and on a
    preview request without database, the validation error is sent and
    the handler goes on to create the connection, connect and execute;
    its final [res.send] then throws, a response being out already. *)
Theorem query_and_preview_run_past_validation_failure :
  let rt := express_driver (JArr [JObj [("CNT", JNum 5)]]) in
  let no_account := [("username", JStr "u"); ("password", JStr "p");
                     ("query", JStr "SHOW DATABASES;")] in
  let no_database := (credentials ++ [("schema", JStr "SC"); ("relation", JStr "T")])%list in
  let params := JObj [("account", JUndefined); ("username", JStr "u");
                      ("password", JStr "p")] in
  run post_query rt no_account
  = (Thrown headers_sent,
     mkWorld
       [EvSend (JObj [("status", JStr "unsuccessful"); ("reason", JStr "invalid account")]);
        EvCreateConnection params;
        EvConnect (mkHandle params) None;
        EvExecute (mkHandle params) (JObj [("sqlText", JStr "SHOW DATABASES;")])
          (inr (JStr "stmt", JArr [JObj [("CNT", JNum 5)]]));
        EvConsoleDebug "Successfully queried Snowflake";
        EvSend (JObj [("status", JStr "successful");
                      ("response", JObj [("stmt", JStr "stmt");
                                         ("rows", JArr [JObj [("CNT", JNum 5)]])])])]
       [JObj [("status", JStr "unsuccessful"); ("reason", JStr "invalid account")]])
  /\ fst (run post_relation_preview rt no_database) = Thrown headers_sent
  /\ response (run post_relation_preview rt no_database)
     = Some (JObj [("status", JStr "unsuccessful");
                   ("reason", JStr "A database must be provided")])
  /\ map (fun ev => is_driver_call ev) (calls (run post_relation_preview rt no_database))
     = [false; true; true; true; true; true; false; false]
  /\ executed (calls (run post_relation_preview rt no_database))
     = [JObj [("sqlText", JStr "SELECT * FROM undefined.SC.T LIMIT 100;")];
        JObj [("sqlText", JStr "DESCRIBE TABLE undefined.SC.T;")];
        JObj [("sqlText", JStr "SELECT COUNT(*) AS CNT FROM undefined.SC.T;")]].
Proof. repeat split. Qed.

(** The same for every request and every driver: when exactly one of
    the validations of a handler fails, its error is sent and
    [createConnection] is called all the same; when the driver returns
    the handle, connect is called on it. *)
Lemma query_runs_past_validation_failure rt body :
  xorb (credentials_present body) (truthy (lookup "query" body)) = true ->
  let params := JObj (connParams (lookup "account" body) (lookup "username" body)
                        (lookup "password" body) (lookup "role" body)
                        (lookup "warehouse" body)) in
  exists v rest,
    calls (run post_query rt body) = EvSend v :: EvCreateConnection params :: rest /\
    (drv_createConnection rt [EvSend v] params = None ->
     exists c rest', rest = EvConnect (mkHandle params) c :: rest').
Proof.
  unfold credentials_present. rewrite <- (negb_involutive (_ && _ && _)).
  rewrite <- validate_truthy. cbv zeta.
  run_cases; intros H; try discriminate; do 2 eexists; (split; [reflexivity|]);
    intros H'; try congruence; do 2 eexists; reflexivity.
Qed.

Lemma preview_runs_past_validation_failure rt body :
  xorb (credentials_present body) (relation_named body) = true ->
  let params := JObj (connParams (lookup "account" body) (lookup "username" body)
                        (lookup "password" body) (lookup "role" body)
                        (lookup "warehouse" body)) in
  exists v rest,
    calls (run post_relation_preview rt body)
    = EvSend v :: EvCreateConnection params :: rest /\
    (drv_createConnection rt [EvSend v] params = None ->
     exists c rest', rest = EvConnect (mkHandle params) c :: rest').
Proof.
  unfold credentials_present, relation_named.
  rewrite <- (negb_involutive (_ && _ && truthy (lookup "password" body))).
  rewrite <- (negb_involutive (_ && _ && truthy (lookup "relation" body))).
  rewrite <- validate_truthy, <- previewValidation_nonempty. cbv zeta.
  run_cases; intros H; try discriminate; do 2 eexists; (split; [reflexivity|]);
    intros H'; try congruence; do 2 eexists; reflexivity.
Qed.

(** The preview request without database, against a driver that checks
    its parameters: the credentials are strings, so the handle is made
    and the three statements run after the validation error. *)
Example preview_runs_past_validation_failure_with_checked_parameters :
  let no_database := (credentials ++ [("schema", JStr "SC"); ("relation", JStr "T")])%list in
  let r := run post_relation_preview (checking_driver (JArr [JObj [("CNT", JNum 5)]]))
             no_database in
  response r = Some (JObj [("status", JStr "unsuccessful");
                           ("reason", JStr "A database must be provided")]) /\
  executed (calls r)
  = [JObj [("sqlText", JStr "SELECT * FROM undefined.SC.T LIMIT 100;")];
     JObj [("sqlText", JStr "DESCRIBE TABLE undefined.SC.T;")];
     JObj [("sqlText", JStr "SELECT COUNT(*) AS CNT FROM undefined.SC.T;")]].
Proof. repeat split. Qed.

(** *** C6 and C9: the open-connection handler *)

(** C6 as stated does not hold: it has the handler attempt the connect
    step regardless.  [createConnection] is called outside the [try],
    so with a driver that checks its parameters the request without
    password ends there: the driver's exception leaves the handler, no
    connect is attempted and [res.send] is not called again. *)
Lemma open_connection_can_stop_at_createConnection :
  let body := [("account", JStr "acct1"); ("username", JStr "u")] in
  let invalid := JObj [("status", JStr "unsuccessful"); ("reason", JStr "invalid password")] in
  let r := run post_root (checking_driver (JArr [])) body in
  r = (Thrown (mkError "A password must be specified."),
       mkWorld
         [EvSend invalid;
          EvCreateConnection (JObj (body ++ [("password", JUndefined)]))]
         [invalid]) /\
  filter is_connect (calls r) = [] /\
  List.length (filter is_send (calls r)) = 1%nat.
Proof. repeat split. Qed.

(** C6, as the handler has it.  On a request to / with a missing
    required field the handler sends the validation error and goes on:
    it calls [createConnection] with the body's fields.  When the driver
    throws there, that exception ends the handler and the validation
    error stays the only response.  When the driver returns the handle,
    the handler calls connect and always calls [res.send] again: with a
    response object that refuses a second send it throws there and the
    validation error stays the response; with one that accepts it a
    second body is emitted. *)
Theorem open_connection_runs_past_validation_failure :
  forall rt body,
    credentials_present body = false ->
    let r := run post_root rt body in
    let v := validateSnowflakeConnectionParams (lookup "account" body)
               (lookup "username" body) (lookup "password" body) in
    let params := JObj (connParams (lookup "account" body) (lookup "username" body)
                          (lookup "password" body) (lookup "role" body)
                          (lookup "warehouse" body)) in
    (exists rest, calls r = EvSend v :: EvCreateConnection params :: rest) /\
    (forall e,
       drv_createConnection rt [EvSend v] params = Some e ->
       r = (Thrown e, mkWorld [EvSend v; EvCreateConnection params] [v])) /\
    (drv_createConnection rt [EvSend v] params = None ->
     (exists c rest,
        calls r = EvSend v :: EvCreateConnection params :: EvConnect (mkHandle params) c :: rest /\
        existsb is_send rest = true) /\
     match send_policy rt with
     | SecondSendThrows e => fst r = Thrown e /\ sent (snd r) = [v]
     | SecondSendAccepted =>
         fst r = Normal tt /\ exists second more, sent (snd r) = v :: second :: more
     end).
Proof.
  intros rt body Hc r v params. subst v params.
  assert (Hv : truthy (validateSnowflakeConnectionParams (lookup "account" body)
                         (lookup "username" body) (lookup "password" body)) = true).
  { rewrite validate_truthy. unfold credentials_present in Hc. now rewrite Hc. }
  freeze r. unfold_run. rewrite Hv. analyse.
  all: thaw; rewrite ?P; (split; [eexists; reflexivity|]).
  all: split; [intros e' He; try discriminate; inversion He; reflexivity|].
  all: intros Hb; try discriminate.
  all: (split; [do 2 eexists; split; reflexivity|]).
  all: try (split; reflexivity).
  all: split; [reflexivity|do 2 eexists; reflexivity].
Qed.

Lemma open_connection_runs_past_validation_failure_witness :
  let rt := express_driver (JArr []) in
  let body := [("account", JStr "acct1"); ("username", JStr "u")] in
  let invalid := JObj [("status", JStr "unsuccessful"); ("reason", JStr "invalid password")] in
  run post_root rt body
  = (Thrown headers_sent,
     mkWorld
       [EvSend invalid;
        EvCreateConnection (JObj (body ++ [("password", JUndefined)]));
        EvConnect (mkHandle (JObj (body ++ [("password", JUndefined)]))) None;
        EvConsoleDebug "Successfully connected to Snowflake";
        EvGetId (mkHandle (JObj (body ++ [("password", JUndefined)]))) (JStr "123");
        EvSend (JObj [("status", JStr "successful"); ("connectionId", JStr "123")])]
       [invalid])
  /\ fst (run post_root rt body) = Thrown headers_sent
  /\ sent (snd (run post_root rt body)) = [invalid]
  /\ run post_root (checking_driver (JArr [])) body
     = (Thrown (mkError "A password must be specified."),
        mkWorld
          [EvSend invalid;
           EvCreateConnection (JObj (body ++ [("password", JUndefined)]))]
          [invalid]).
Proof.
  intros rt body invalid. split; [reflexivity|].
  split; [|split].
  - exact (proj1 (proj2 (proj2 (proj2
             (open_connection_runs_past_validation_failure rt body eq_refl)) eq_refl))).
  - exact (proj2 (proj2 (proj2 (proj2
             (open_connection_runs_past_validation_failure rt body eq_refl)) eq_refl))).
  - exact (proj1 (proj2
             (open_connection_runs_past_validation_failure (checking_driver (JArr []))
                body eq_refl))
             (mkError "A password must be specified.") eq_refl).
Defined.

(** With a response object that accepts repeated sends, a request without
    credentials against a driver that cannot connect gets three bodies. *)
Example open_connection_three_bodies :
  sent (snd (run post_root (lenient_no_connect "Network error") []))
  = [JObj [("status", JStr "unsuccessful"); ("reason", JStr "invalid account")];
     JObj [("status", JStr "unsuccessful");
           ("reason", JStr "Error connecting to Snowflake: Network error")];
     JObj [("status", JStr "successful"); ("connectionId", JStr "123")]].
Proof. reflexivity. Qed.

(** C9.  In the open-connection handler a failed connect does not stop
    the handler either: once the response [{status: "unsuccessful",
    reason: "Error connecting to Snowflake: " + message}] has been sent
    (the request passed validation, or the response object takes a
    second send), the handler logs its success line, calls [getId] on
    the handle and calls [res.send] with [{status: "successful",
    connectionId}]. *)
Theorem open_connection_falls_through_connect_failure :
  forall rt body h e,
    let r := run post_root rt body in
    let errMsg := "Error connecting to Snowflake: " ++ message e in
    let failure := JObj [("status", JStr "unsuccessful"); ("reason", JStr errMsg)] in
    let success := fun id => JObj [("status", JStr "successful"); ("connectionId", id)] in
    In (EvConnect h (Some e)) (calls r) ->
    credentials_present body = true \/ send_policy rt = SecondSendAccepted ->
    exists before id,
      calls r = (before ++ [EvConnect h (Some e);
                            EvConsoleError errMsg;
                            EvSend failure;
                            EvConsoleDebug "Successfully connected to Snowflake";
                            EvGetId h id;
                            EvSend (success id)])%list /\
      (credentials_present body = true ->
       match send_policy rt with
       | SecondSendThrows e' => fst r = Thrown e' /\ sent (snd r) = [failure]
       | SecondSendAccepted => fst r = Normal tt /\ sent (snd r) = [failure; success id]
       end).
Proof.
  intros rt body h e r errMsg failure success. subst errMsg failure success.
  unfold credentials_present. rewrite <- (negb_involutive (_ && _ && _)).
  rewrite <- validate_truthy.
  freeze r. run_cases; thaw; rewrite ?P; intros Hin Hok; pick_event Hin;
    try discriminate; inversion Hin; subst;
    try (destruct Hok; discriminate);
    match goal with
    | |- exists _ _, ?l = _ /\ _ => exists (firstn (List.length l - 6) l); simpl
    end; eexists; (split; [reflexivity|]); simpl;
    intros; try discriminate; split; reflexivity.
Qed.

Lemma open_connection_falls_through_connect_failure_witness :
  let rt := express_no_connect "Incorrect username or password was specified." in
  let failure :=
    JObj [("status", JStr "unsuccessful");
          ("reason", JStr "Error connecting to Snowflake: Incorrect username or password was specified.")] in
  run post_root rt credentials
  = (Thrown headers_sent,
     mkWorld
       [EvCreateConnection (JObj credentials);
        EvConnect (mkHandle (JObj credentials))
          (Some (mkError "Incorrect username or password was specified."));
        EvConsoleError
          "Error connecting to Snowflake: Incorrect username or password was specified.";
        EvSend failure;
        EvConsoleDebug "Successfully connected to Snowflake";
        EvGetId (mkHandle (JObj credentials)) (JStr "123");
        EvSend (JObj [("status", JStr "successful"); ("connectionId", JStr "123")])]
       [failure])
  /\ exists before id,
       calls (run post_root rt credentials)
       = (before ++ [EvConnect (mkHandle (JObj credentials))
                       (Some (mkError "Incorrect username or password was specified."));
                     EvConsoleError
                       "Error connecting to Snowflake: Incorrect username or password was specified.";
                     EvSend failure;
                     EvConsoleDebug "Successfully connected to Snowflake";
                     EvGetId (mkHandle (JObj credentials)) id;
                     EvSend (JObj [("status", JStr "successful");
                                   ("connectionId", id)])])%list.
Proof.
  intros rt failure. split; [reflexivity|].
  destruct (open_connection_falls_through_connect_failure rt credentials
              (mkHandle (JObj credentials))
              (mkError "Incorrect username or password was specified."))
    as (before & id & H & _).
  - simpl. tauto.
  - left. reflexivity.
  - exists before, id. exact H.
Defined.

(** *** C7: the preview-field validation *)

Lemma previewValidation_items database schema relation :
  previewValidation database schema relation
  = ((if truthy database then [] else [unsuccessful "A database must be provided"])
     ++ (if truthy schema then [] else [unsuccessful "A schema must be provided"])
     ++ (if truthy relation then [] else [unsuccessful "A relation must be provided"]))%list.
Proof.
  unfold previewValidation.
  destruct (truthy database), (truthy schema), (truthy relation); reflexivity.
Qed.

(** The items after the first are none of the bodies the preview handler
    ever hands to [res.send]. *)
Lemma previewValidation_later_items database schema relation x :
  In x (tl (previewValidation database schema relation)) ->
  (forall account username password,
     x <> validateSnowflakeConnectionParams account username password) /\
  x <> nth 0 (previewValidation database schema relation) JUndefined /\
  (forall m, x <> unsuccessful ("Error executing Snowflake query: " ++ m)) /\
  (forall props, x <> JObj (("status", JStr "successful") :: props)).
Proof.
  rewrite previewValidation_items.
  destruct (truthy database), (truthy schema), (truthy relation); simpl;
    intros H; pick_event H; subst x; repeat split;
    try (intros account username password; unfold validateSnowflakeConnectionParams;
         destruct (truthy account), (truthy username), (truthy password); simpl);
    try intros m; unfold unsuccessful; cbv [String.append]; discriminate.
Qed.

(** C7.  The preview handler checks database, schema and relation in
    this order and collects the error of every falsy one; it hands the
    first item of that list to [res.send], and none of the later ones.
    The first item names the first missing field, and it is the response
    of a request whose credentials are present. *)
Theorem preview_validation_surfaces_first_missing_field :
  (forall database schema relation,
     let queryValidation := previewValidation database schema relation in
     let missing := fun what : string =>
       JObj [("status", JStr "unsuccessful");
             ("reason", JStr ("A " ++ what ++ " must be provided"))] in
     queryValidation
     = ((if truthy database then [] else [missing "database"])
        ++ (if truthy schema then [] else [missing "schema"])
        ++ (if truthy relation then [] else [missing "relation"]))%list /\
     (truthy database = false -> nth 0 queryValidation JUndefined = missing "database") /\
     (truthy database = true -> truthy schema = false ->
      nth 0 queryValidation JUndefined = missing "schema") /\
     (truthy database = true -> truthy schema = true -> truthy relation = false ->
      nth 0 queryValidation JUndefined = missing "relation")) /\
  (forall rt body,
     let queryValidation := previewValidation (lookup "database" body)
                              (lookup "schema" body) (lookup "relation" body) in
     let r := run post_relation_preview rt body in
     relation_named body = false ->
     In (EvSend (nth 0 queryValidation JUndefined)) (calls r) /\
     (forall x, In x (tl queryValidation) -> ~ In (EvSend x) (calls r)) /\
     (credentials_present body = true ->
      response r = Some (nth 0 queryValidation JUndefined))).
Proof.
  split.
  - intros database schema relation queryValidation missing.
    subst queryValidation missing. rewrite previewValidation_items.
    destruct (truthy database), (truthy schema), (truthy relation);
      repeat split; intros; try discriminate; reflexivity.
  - intros rt body queryValidation r Hn.
    assert (Hq : (0 <? List.length queryValidation)%nat = true).
    { subst queryValidation. rewrite previewValidation_nonempty.
      unfold relation_named in Hn. now rewrite Hn. }
    pose proof (previewValidation_later_items (lookup "database" body)
                  (lookup "schema" body) (lookup "relation" body)) as Later.
    assert (Hv := @validate_present body).
    subst queryValidation. clear Hn.
    freeze r. unfold_run. rewrite Hq. analyse.
    all: thaw; split; [tauto|].
    all: split;
      [ intros x Hx Hin; destruct (Later x Hx) as (N1 & N2 & N3 & N4);
        pick_event Hin; try discriminate; inversion Hin; subst;
        solve [ eapply N1; reflexivity | apply N2; reflexivity
              | eapply N3; reflexivity | eapply N4; reflexivity ] |].
    all: intros Hc; try reflexivity; apply Hv in Hc; congruence.
Qed.

(** A request with credentials that names neither schema nor relation. *)
Lemma preview_validation_surfaces_first_missing_field_witness :
  let body := (credentials ++ [("database", JStr "DB"); ("schema", JStr "")])%list in
  let r := run post_relation_preview (express_driver (JArr [])) body in
  previewValidation (JStr "DB") (JStr "") JUndefined
  = [JObj [("status", JStr "unsuccessful"); ("reason", JStr "A schema must be provided")];
     JObj [("status", JStr "unsuccessful"); ("reason", JStr "A relation must be provided")]]
  /\ response r
     = Some (JObj [("status", JStr "unsuccessful");
                   ("reason", JStr "A schema must be provided")])
  /\ ~ In (EvSend (JObj [("status", JStr "unsuccessful");
                         ("reason", JStr "A relation must be provided")])) (calls r).
Proof.
  intros body r.
  destruct (proj2 preview_validation_surfaces_first_missing_field
              (express_driver (JArr [])) body eq_refl) as (_ & Hlater & Hresp).
  split; [reflexivity|]. split.
  - exact (Hresp eq_refl).
  - apply Hlater. simpl. tauto.
Defined.

(** *** C8: a count query without rows *)

Lemma index0_no_rows te : index0 te (JArr []) = inr JUndefined.
Proof. reflexivity. Qed.

Lemma member_of_undefined te k : member te JUndefined k = inl (te JUndefined k).
Proof. reflexivity. Qed.

Lemma previewQuery_not_countQuery database schema relation :
  previewQuery database schema relation <> countQuery database schema relation.
Proof. unfold previewQuery, countQuery. cbv [String.append]. discriminate. Qed.

Lemma describeQuery_not_countQuery database schema relation :
  describeQuery database schema relation <> countQuery database schema relation.
Proof. unfold describeQuery, countQuery. cbv [String.append]. discriminate. Qed.

(** C8 as stated does not hold: it has the TypeError of [rows[0].CNT]
    escape the handler with no error response produced.  On a valid
    request whose statements all return zero rows the handler does not
    throw: it returns, and the response is the error built from the
    TypeError. *)
Lemma preview_zero_rows_is_not_unhandled :
  let r := run post_relation_preview (express_driver (JArr [])) preview_body in
  (forall e, fst r <> Thrown e) /\
  fst r = Return /\
  sent (snd r)
  = [JObj [("status", JStr "unsuccessful");
           ("reason",
            JStr "Error executing Snowflake query: Cannot read property 'CNT' of undefined")]].
Proof. repeat split. intros e. discriminate. Qed.

(** C8, as the handler has it.  When the count query returns zero rows,
    [rows[0]] is [undefined] and reading [CNT] of it throws a TypeError
    inside the third [try]: the [catch] logs it and calls [res.send]
    with [{status: "unsuccessful", reason: "Error executing Snowflake
    query: " + <the TypeError's message>}], and nothing follows.  On a
    valid request this is the response and the handler returns. *)
Theorem preview_zero_rows_is_caught :
  forall rt body h stmt,
    let r := run post_relation_preview rt body in
    let q3 := JObj [("sqlText",
                     JStr (countQuery (lookup "database" body) (lookup "schema" body)
                             (lookup "relation" body)))] in
    let errMsg := "Error executing Snowflake query: "
                    ++ message (type_error rt JUndefined "CNT") in
    let reply := JObj [("status", JStr "unsuccessful"); ("reason", JStr errMsg)] in
    In (EvExecute h q3 (inr (stmt, JArr []))) (calls r) ->
    exists before,
      calls r = (before ++ [EvExecute h q3 (inr (stmt, JArr []));
                            EvConsoleError errMsg;
                            EvSend reply])%list /\
      (credentials_present body = true -> relation_named body = true ->
       fst r = Return /\ sent (snd r) = [reply]).
Proof.
  intros rt body h stmt r q3 errMsg reply. subst q3 errMsg reply.
  assert (Hv := @validate_present body).
  assert (Hq := @previewValidation_named body).
  assert (N1 := previewQuery_not_countQuery (lookup "database" body)
                  (lookup "schema" body) (lookup "relation" body)).
  assert (N2 := describeQuery_not_countQuery (lookup "database" body)
                  (lookup "schema" body) (lookup "relation" body)).
  freeze r. run_cases; thaw; intros Hin; pick_event Hin; try discriminate;
    inversion Hin; subst; try contradiction;
    rewrite ?index0_no_rows, ?member_of_undefined in *;
    repeat match goal with
           | H : inr _ = inr _ |- _ => inversion H; clear H; subst
           | H : inl _ = inl _ |- _ => inversion H; clear H; subst
           | H : inl _ = inr _ |- _ => discriminate H
           | H : inr _ = inl _ |- _ => discriminate H
           end;
    rewrite ?member_of_undefined in *; try discriminate;
    repeat match goal with
           | H : inl _ = inl _ |- _ => inversion H; clear H; subst
           end;
    trace_before 3; (split; [reflexivity|]);
    intros Hc%Hv Hn%Hq; try congruence; split; reflexivity.
Qed.

Lemma preview_zero_rows_is_caught_witness :
  let rt := express_driver (JArr []) in
  let reply :=
    JObj [("status", JStr "unsuccessful");
          ("reason",
           JStr "Error executing Snowflake query: Cannot read property 'CNT' of undefined")] in
  fst (run post_relation_preview rt preview_body) = Return /\
  sent (snd (run post_relation_preview rt preview_body)) = [reply].
Proof.
  intros rt reply.
  destruct (preview_zero_rows_is_caught rt preview_body (mkHandle (JObj credentials))
              (JStr "stmt")) as (before & _ & H).
  - simpl. tauto.
  - exact (H eq_refl eq_refl).
Defined.

(** *** C10: empty strings *)

(** The validators look at the truthiness of their arguments only. *)
Lemma validate_by_truthiness a u p a' u' p' :
  truthy a = truthy a' -> truthy u = truthy u' -> truthy p = truthy p' ->
  validateSnowflakeConnectionParams a u p = validateSnowflakeConnectionParams a' u' p'.
Proof. unfold validateSnowflakeConnectionParams. now intros -> -> ->. Qed.

Lemma previewValidation_by_truthiness d s r d' s' r' :
  truthy d = truthy d' -> truthy s = truthy s' -> truthy r = truthy r' ->
  previewValidation d s r = previewValidation d' s' r'.
Proof. unfold previewValidation. now intros -> -> ->. Qed.

(** The response of a request that fails a validation, for each handler,
    as a function of the truthiness of its required fields. *)
Lemma post_root_response_by_truthiness rt body body' :
  truthy (lookup "account" body) = truthy (lookup "account" body') ->
  truthy (lookup "username" body) = truthy (lookup "username" body') ->
  truthy (lookup "password" body) = truthy (lookup "password" body') ->
  credentials_present body = false ->
  response (run post_root rt body) = response (run post_root rt body').
Proof.
  intros Ha Hu Hp Hc.
  assert (Hc' : credentials_present body' = false).
  { unfold credentials_present in *. now rewrite <- Ha, <- Hu, <- Hp. }
  rewrite !post_root_invalid_response
    by (rewrite validate_truthy; unfold credentials_present in *; now rewrite ?Hc, ?Hc').
  f_equal. now apply validate_by_truthiness.
Qed.

Lemma post_query_response_by_truthiness rt body body' :
  truthy (lookup "account" body) = truthy (lookup "account" body') ->
  truthy (lookup "username" body) = truthy (lookup "username" body') ->
  truthy (lookup "password" body) = truthy (lookup "password" body') ->
  truthy (lookup "query" body) = truthy (lookup "query" body') ->
  credentials_present body && truthy (lookup "query" body) = false ->
  response (run post_query rt body) = response (run post_query rt body').
Proof.
  intros Ha Hu Hp Hq Hc.
  assert (Hcc : credentials_present body' = credentials_present body).
  { unfold credentials_present. now rewrite <- Ha, <- Hu, <- Hp. }
  destruct (credentials_present body) eqn:Hb.
  - simpl in Hc. rewrite !post_query_missing_text_response by congruence. reflexivity.
  - rewrite !post_query_invalid_response
      by (rewrite validate_truthy; unfold credentials_present in *; now rewrite ?Hb, ?Hcc).
    f_equal. now apply validate_by_truthiness.
Qed.

Lemma post_relation_preview_response_by_truthiness rt body body' :
  truthy (lookup "account" body) = truthy (lookup "account" body') ->
  truthy (lookup "username" body) = truthy (lookup "username" body') ->
  truthy (lookup "password" body) = truthy (lookup "password" body') ->
  truthy (lookup "database" body) = truthy (lookup "database" body') ->
  truthy (lookup "schema" body) = truthy (lookup "schema" body') ->
  truthy (lookup "relation" body) = truthy (lookup "relation" body') ->
  credentials_present body && relation_named body = false ->
  response (run post_relation_preview rt body)
  = response (run post_relation_preview rt body').
Proof.
  intros Ha Hu Hp Hd Hs Hr Hc.
  assert (Hcc : credentials_present body' = credentials_present body).
  { unfold credentials_present. now rewrite <- Ha, <- Hu, <- Hp. }
  assert (Hnn : relation_named body' = relation_named body).
  { unfold relation_named. now rewrite <- Hd, <- Hs, <- Hr. }
  destruct (credentials_present body) eqn:Hb.
  - simpl in Hc.
    rewrite Hc in Hnn.
    rewrite !post_relation_preview_missing_field_response;
      try (rewrite previewValidation_nonempty; unfold relation_named in *;
           now rewrite ?Hc, ?Hnn);
      try congruence.
    f_equal. f_equal. now apply previewValidation_by_truthiness.
  - rewrite !post_relation_preview_invalid_response
      by (rewrite validate_truthy; unfold credentials_present in *; now rewrite ?Hb, ?Hcc).
    f_equal. now apply validate_by_truthiness.
Qed.

(** Setting one field leaves the lookups of the other fields alone. *)
Ltac solve_lookup :=
  repeat first
    [ rewrite lookup_with_field_same
    | rewrite lookup_without_field_same
    | rewrite lookup_with_field_other by reflexivity
    | rewrite lookup_without_field_other by reflexivity ];
  reflexivity.

(** C10.  A required field given as the empty string is treated as an
    absent one.  Both validators return the same for [""] as for
    [undefined] in any position, [password: ""] gives [{status:
    "unsuccessful", reason: "invalid password"}], and every handler
    answers a request whose required field is [""] as it answers the
    request without that field. *)
Theorem empty_string_is_treated_as_missing :
  (forall x y,
     validateSnowflakeConnectionParams (JStr "") x y
     = validateSnowflakeConnectionParams JUndefined x y /\
     validateSnowflakeConnectionParams x (JStr "") y
     = validateSnowflakeConnectionParams x JUndefined y /\
     validateSnowflakeConnectionParams x y (JStr "")
     = validateSnowflakeConnectionParams x y JUndefined /\
     previewValidation (JStr "") x y = previewValidation JUndefined x y /\
     previewValidation x (JStr "") y = previewValidation x JUndefined y /\
     previewValidation x y (JStr "") = previewValidation x y JUndefined) /\
  (forall account username,
     truthy account = true -> truthy username = true ->
     validateSnowflakeConnectionParams account username (JStr "")
     = JObj [("status", JStr "unsuccessful"); ("reason", JStr "invalid password")]) /\
  (forall rt body k,
     (In k ["account"; "username"; "password"] ->
      response (run post_root rt (with_field k (JStr "") body))
      = response (run post_root rt (without_field k body))) /\
     (In k ["account"; "username"; "password"; "query"] ->
      response (run post_query rt (with_field k (JStr "") body))
      = response (run post_query rt (without_field k body))) /\
     (In k ["account"; "username"; "password"; "database"; "schema"; "relation"] ->
      response (run post_relation_preview rt (with_field k (JStr "") body))
      = response (run post_relation_preview rt (without_field k body)))).
Proof.
  split; [|split].
  - intros x y. repeat split.
  - intros account username Ha Hu.
    unfold validateSnowflakeConnectionParams. now rewrite Ha, Hu.
  - intros rt body k. repeat split; intros Hk; pick_event Hk; subst k.
    all: first
      [ apply post_root_response_by_truthiness
      | apply post_query_response_by_truthiness
      | apply post_relation_preview_response_by_truthiness ].
    all: try solve_lookup.
    all: unfold credentials_present, relation_named;
      repeat first
        [ rewrite lookup_with_field_same
        | rewrite lookup_with_field_other by reflexivity ];
      simpl; rewrite ?andb_false_r; reflexivity.
Qed.

(** A /query request with an empty password and one without password. *)
Lemma empty_string_is_treated_as_missing_witness :
  let rt := express_driver (JArr []) in
  let invalid := JObj [("status", JStr "unsuccessful"); ("reason", JStr "invalid password")] in
  validateSnowflakeConnectionParams (JStr "acct1") (JStr "u") (JStr "") = invalid /\
  response (run post_query rt
              [("account", JStr "acct1"); ("username", JStr "u"); ("password", JStr "");
               ("query", JStr "SHOW DATABASES;")]) = Some invalid /\
  response (run post_query rt
              [("account", JStr "acct1"); ("username", JStr "u");
               ("query", JStr "SHOW DATABASES;")]) = Some invalid /\
  response (run post_query rt (with_field "password" (JStr "") query_body))
  = response (run post_query rt (without_field "password" query_body)).
Proof.
  intros rt invalid.
  split; [|split; [reflexivity|split; [reflexivity|]]].
  - apply (proj1 (proj2 empty_string_is_treated_as_missing)); reflexivity.
  - apply (proj2 (proj2 empty_string_is_treated_as_missing) rt query_body "password").
    simpl. tauto.
Defined.

(** ** Further properties of the route handlers *)

Lemma validate_status account username password :
  truthy (validateSnowflakeConnectionParams account username password) = true ->
  has_status (validateSnowflakeConnectionParams account username password).
Proof.
  unfold validateSnowflakeConnectionParams.
  destruct (truthy account), (truthy username), (truthy password); simpl;
    intros H; try discriminate; right; reflexivity.
Qed.

Lemma previewValidation_status database schema relation :
  (0 <? List.length (previewValidation database schema relation))%nat = true ->
  has_status (nth 0 (previewValidation database schema relation) JUndefined).
Proof.
  unfold previewValidation.
  destruct (truthy database), (truthy schema), (truthy relation); simpl;
    intros H; try discriminate; right; reflexivity.
Qed.

(** Closes [has_status b] for a body that a handler sends. *)
Ltac solve_status :=
  first [ apply validate_status; assumption
        | apply previewValidation_status; assumption
        | left; reflexivity
        | right; reflexivity ].

(** X1.  Every body a handler hands to [res.send] is an object whose
    status is "successful" or "unsuccessful".  A handler that runs to
    its end has answered the request, with one exception: when the
    driver throws at [createConnection] before anything was sent, which
    is the case of a request that passed the validations, the handler
    ends with that exception and there is no response. *)
Theorem handlers_answer_unless_createConnection_throws :
  forall handler rt body,
    In handler handlers ->
    let r := run handler rt body in
    let params := JObj (connParams (lookup "account" body) (lookup "username" body)
                          (lookup "password" body) (lookup "role" body)
                          (lookup "warehouse" body)) in
    (forall b, In (EvSend b) (calls r) -> has_status b) /\
    ((exists b, response r = Some b /\ has_status b) \/
     (exists e,
        drv_createConnection rt [] params = Some e /\
        r = (Thrown e, mkWorld [EvCreateConnection params] []))).
Proof.
  intros handler rt body Hh r params. subst params. pick_event Hh; subst handler.
  all: freeze r; run_cases; thaw.
  all: split;
    [ intros b Hin; pick_event Hin; try discriminate; inversion Hin; subst;
      solve_status
    | first [ left; eexists; split; [reflexivity|solve_status]
            | right; eexists; split; reflexivity ] ].
Qed.

Lemma handlers_answer_unless_createConnection_throws_witness :
  (exists b,
     response (run post_relation_preview (express_no_execute "Table does not exist")
                 preview_body) = Some b /\ has_status b) /\
  response (run post_query (rejecting_driver "Invalid account.") query_body) = None.
Proof.
  split.
  - destruct (proj2 (handlers_answer_unless_createConnection_throws post_relation_preview
                       (express_no_execute "Table does not exist") preview_body
                       (or_intror (or_intror (or_introl eq_refl)))))
      as [H | (e & He & _)]; [exact H | discriminate He].
  - reflexivity.
Defined.

(** X2.  No error of connect or execute and no TypeError of a template
    literal or of reading the row count leaves a handler.  A handler
    ends with an exception in two cases only: the response object throws
    at a repeated [res.send], or the driver throws at
    [createConnection], which is called outside every [try]. *)
Theorem handlers_throw_only_at_createConnection_or_a_repeated_send :
  forall handler rt body e,
    In handler handlers ->
    let r := run handler rt body in
    let params := JObj (connParams (lookup "account" body) (lookup "username" body)
                          (lookup "password" body) (lookup "role" body)
                          (lookup "warehouse" body)) in
    fst r = Thrown e ->
    (send_policy rt = SecondSendThrows e /\
     (2 <= List.length (filter is_send (calls r)))%nat /\
     List.length (sent (snd r)) = 1%nat) \/
    (exists before,
       calls r = (before ++ [EvCreateConnection params])%list /\
       drv_createConnection rt before params = Some e).
Proof.
  intros handler rt body e Hh r params. subst params. pick_event Hh; subst handler.
  all: freeze r; run_cases; thaw; intros H; try discriminate; inversion H; subst.
  all: first
    [ left; repeat split; try assumption; simpl; lia
    | right;
      match goal with
      | |- exists _, ?l = _ /\ _ => exists (firstn (List.length l - 1) l); simpl
      end; split; [reflexivity|assumption] ].
Qed.

Lemma handlers_throw_only_at_createConnection_or_a_repeated_send_witness :
  (send_policy (express_driver (JArr [])) = SecondSendThrows headers_sent /\
   (2 <= List.length (filter is_send (calls (run post_query (express_driver (JArr []))
                                               [("query", JStr "SHOW DATABASES;")]))))%nat) \/
  calls (run post_query (express_driver (JArr [])) [("query", JStr "SHOW DATABASES;")])
  = [EvSend (JObj [("status", JStr "unsuccessful"); ("reason", JStr "invalid account")])].
Proof.
  destruct (handlers_throw_only_at_createConnection_or_a_repeated_send post_query
              (express_driver (JArr [])) [("query", JStr "SHOW DATABASES;")] headers_sent)
    as [(H1 & H2 & _) | (before & _ & H)].
  - simpl. tauto.
  - reflexivity.
  - left. split; assumption.
  - discriminate H.
Defined.

(** X3.  A request that passes the validations of /query or of
    /relation-preview never gets two [res.send] calls.  When the driver
    throws at [createConnection] the handler ends with that exception
    and nothing is sent; when the driver returns the handle, a handler
    that runs to its end has called [res.send] exactly once and ends by
    falling off its end or by [return]. *)
Theorem valid_requests_are_answered_at_most_once :
  forall rt body,
    credentials_present body = true ->
    let params := JObj (connParams (lookup "account" body) (lookup "username" body)
                          (lookup "password" body) (lookup "role" body)
                          (lookup "warehouse" body)) in
    let answered_once := fun r : Completion unit * World =>
      (List.length (filter is_send (calls r)) <= 1)%nat /\
      (forall e,
         drv_createConnection rt [] params = Some e ->
         r = (Thrown e, mkWorld [EvCreateConnection params] [])) /\
      (drv_createConnection rt [] params = None ->
       List.length (filter is_send (calls r)) = 1%nat /\
       List.length (sent (snd r)) = 1%nat /\
       (fst r = Normal tt \/ fst r = Return)) in
    (truthy (lookup "query" body) = true -> answered_once (run post_query rt body)) /\
    (relation_named body = true -> answered_once (run post_relation_preview rt body)).
Proof.
  intros rt body Hc%validate_present params answered_once.
  subst answered_once params. split.
  - intros Hq. remember (run post_query rt body) as r eqn:Hr. symmetry in Hr. revert Hr.
    unfold_run. rewrite Hc, Hq. analyse; thaw;
      (split; [lia|split; [intros e' He; try discriminate; inversion He; reflexivity|]]);
      intros Hb; try discriminate; repeat split; tauto.
  - intros Hn%previewValidation_named.
    remember (run post_relation_preview rt body) as r eqn:Hr. symmetry in Hr. revert Hr.
    unfold_run. rewrite Hc, Hn. analyse; thaw;
      (split; [lia|split; [intros e' He; try discriminate; inversion He; reflexivity|]]);
      intros Hb; try discriminate; repeat split; tauto.
Qed.

Lemma valid_requests_are_answered_at_most_once_witness :
  List.length (filter is_send (calls (run post_query (express_no_connect "Network error")
                                        query_body))) = 1%nat /\
  run post_relation_preview (rejecting_driver "Invalid account.") preview_body
  = (Thrown (mkError "Invalid account."),
     mkWorld [EvCreateConnection (JObj credentials)] []).
Proof.
  split.
  - exact (proj1 (proj2 (proj2 (proj1 (valid_requests_are_answered_at_most_once
                                         (express_no_connect "Network error") query_body
                                         eq_refl)
                                  eq_refl)) eq_refl)).
  - exact (proj1 (proj2 (proj2 (valid_requests_are_answered_at_most_once
                                  (rejecting_driver "Invalid account.") preview_body
                                  eq_refl)
                           eq_refl))
             (mkError "Invalid account.") eq_refl).
Defined.





(** Splits a known trace around its successful connect. *)
Ltac around_connect :=
  match goal with
  | |- exists _ _, ?l = _ /\ _ =>
      first [ exists (firstn 1 l), (skipn 2 l); simpl; split; [reflexivity|]
            | exists (firstn 2 l), (skipn 3 l); simpl; split; [reflexivity|]
            | exists (firstn 3 l), (skipn 4 l); simpl; split; [reflexivity|] ]
  end.

(** X4.  The driver calls of a request, in each of the three routes: at
    most one connection is created, from the body's account, username,
    password, role and warehouse, and connect is called at most once;
    every call on a connection is on that one; a statement is executed
    only after its successful connect.  The open-connection route never
    executes a statement, and the two others never call [getId]. *)
Theorem driver_calls_follow_one_connection :
  (forall handler rt body,
     In handler handlers ->
     let r := run handler rt body in
     let params := JObj (connParams (lookup "account" body) (lookup "username" body)
                           (lookup "password" body) (lookup "role" body)
                           (lookup "warehouse" body)) in
     (forall p, In (EvCreateConnection p) (calls r) -> p = params) /\
     (List.length (filter is_createConnection (calls r)) <= 1)%nat /\
     (List.length (filter is_connect (calls r)) <= 1)%nat /\
     Forall (on_handle (mkHandle params)) (calls r) /\
     (forall h options result,
        In (EvExecute h options result) (calls r) ->
        exists before after,
          calls r = (before ++ EvConnect h None :: after)%list /\
          In (EvExecute h options result) after)) /\
  (forall rt body, executed (calls (run post_root rt body)) = []) /\
  (forall rt body h id,
     ~ In (EvGetId h id) (calls (run post_query rt body)) /\
     ~ In (EvGetId h id) (calls (run post_relation_preview rt body))).
Proof.
  split; [|split].
  - intros handler rt body Hh r params. subst params.
    pick_event Hh; subst handler.
    all: freeze r; run_cases; thaw.
    all: split;
      [ intros p Hin; pick_event Hin; try discriminate; inversion Hin; reflexivity |].
    all: split; [lia|].
    all: split; [lia|].
    all: split; [repeat constructor|].
    all: intros h options result Hin; pick_event Hin; try discriminate;
      inversion Hin; subst; around_connect; simpl; tauto.
  - intros rt body. remember (run post_root rt body) as r eqn:Hr.
    symmetry in Hr. revert Hr. run_cases; thaw; reflexivity.
  - intros rt body h id. split.
    + remember (run post_query rt body) as r eqn:Hr.
      symmetry in Hr. revert Hr. run_cases; thaw;
        intros Hin; pick_event Hin; discriminate.
    + remember (run post_relation_preview rt body) as r eqn:Hr.
      symmetry in Hr. revert Hr. run_cases; thaw;
        intros Hin; pick_event Hin; discriminate.
Qed.

Lemma driver_calls_follow_one_connection_witness :
  let r := run post_relation_preview (express_driver (JArr [])) preview_body in
  (List.length (filter is_createConnection (calls r)) <= 1)%nat /\
  Forall (on_handle (mkHandle (JObj credentials))) (calls r).
Proof.
  intros r.
  destruct (proj1 driver_calls_follow_one_connection post_relation_preview
              (express_driver (JArr [])) preview_body
              (or_intror (or_intror (or_introl eq_refl)))) as (_ & H1 & _ & H2 & _).
  split; assumption.
Defined.

(** X5.  On a /query request that passed validation, a statement the
    driver executes successfully is the body's query, passed as it is
    under [sqlText], and the response is [{status: "successful",
    response: {stmt, rows}}] with the statement handle and the rows of
    the driver; the handler falls off its end after this single send. *)
Theorem query_success_returns_statement_and_rows :
  forall rt body h options stmt rows,
    credentials_present body = true ->
    truthy (lookup "query" body) = true ->
    let r := run post_query rt body in
    let success :=
      JObj [("status", JStr "successful");
            ("response", JObj [("stmt", stmt); ("rows", rows)])] in
    In (EvExecute h options (inr (stmt, rows))) (calls r) ->
    options = JObj [("sqlText", lookup "query" body)] /\
    calls r = [EvCreateConnection (handle_params h);
               EvConnect h None;
               EvExecute h options (inr (stmt, rows));
               EvConsoleDebug "Successfully queried Snowflake";
               EvSend success] /\
    sent (snd r) = [success] /\
    fst r = Normal tt.
Proof.
  intros rt body h options stmt rows Hc%validate_present Hq r success. subst success.
  freeze r. unfold_run. rewrite Hc, Hq. analyse; thaw; intros Hin; pick_event Hin; try discriminate;
    inversion Hin; subst; repeat split.
Qed.

Lemma query_success_returns_statement_and_rows_witness :
  sent (snd (run post_query (express_driver (JArr [JObj [("name", JStr "DB1")]]))
               query_body))
  = [JObj [("status", JStr "successful");
           ("response", JObj [("stmt", JStr "stmt");
                              ("rows", JArr [JObj [("name", JStr "DB1")]])])]].
Proof.
  destruct (query_success_returns_statement_and_rows
              (express_driver (JArr [JObj [("name", JStr "DB1")]])) query_body
              (mkHandle (JObj credentials)) (JObj [("sqlText", JStr "SHOW DATABASES;")])
              (JStr "stmt") (JArr [JObj [("name", JStr "DB1")]]) eq_refl eq_refl)
    as (_ & _ & H & _).
  - simpl. tauto.
  - exact H.
Defined.

(** X6.  On a request to / with credentials, a successful connect is
    followed by the log line, by [getId] on the same handle and by the
    single response [{status: "successful", connectionId}] carrying what
    [getId] returned; the handler then falls off its end. *)
Theorem open_connection_success_returns_connection_id :
  forall rt body h,
    credentials_present body = true ->
    let r := run post_root rt body in
    In (EvConnect h None) (calls r) ->
    exists id,
      calls r = [EvCreateConnection (handle_params h);
                 EvConnect h None;
                 EvConsoleDebug "Successfully connected to Snowflake";
                 EvGetId h id;
                 EvSend (JObj [("status", JStr "successful"); ("connectionId", id)])] /\
      sent (snd r) = [JObj [("status", JStr "successful"); ("connectionId", id)]] /\
      fst r = Normal tt.
Proof.
  intros rt body h Hc%validate_present r.
  freeze r. unfold_run. rewrite Hc. analyse; thaw; intros Hin; pick_event Hin; try discriminate;
    inversion Hin; subst; eexists; repeat split.
Qed.

Lemma open_connection_success_returns_connection_id_witness :
  exists id,
    sent (snd (run post_root (express_driver (JArr [])) credentials))
    = [JObj [("status", JStr "successful"); ("connectionId", id)]].
Proof.
  destruct (open_connection_success_returns_connection_id (express_driver (JArr []))
              credentials (mkHandle (JObj credentials)) eq_refl)
    as (id & _ & H & _).
  - simpl. tauto.
  - exists id. exact H.
Defined.

(** What the rows of the count statement make of the response of a
    valid preview request. *)
Lemma preview_count_rows_decide rt body h stmt3 rows3 :
  credentials_present body = true ->
  relation_named body = true ->
  let r := run post_relation_preview rt body in
  let q3 := JObj [("sqlText",
                   JStr (countQuery (lookup "database" body) (lookup "schema" body)
                           (lookup "relation" body)))] in
  let failure := fun e : JsError =>
    fst r = Return /\
    sent (snd r) = [unsuccessful ("Error executing Snowflake query: " ++ message e)] in
  In (EvExecute h q3 (inr (stmt3, rows3))) (calls r) ->
  match index0 (type_error rt) rows3 with
  | inl e => failure e
  | inr row =>
      match member (type_error rt) row "CNT" with
      | inl e => failure e
      | inr rowcount =>
          fst r = Normal tt /\
          exists stmt1 rows1 stmt2 rows2,
            sent (snd r)
            = [JObj [("status", JStr "successful");
                     ("preview", JObj [("stmt", stmt1); ("rows", rows1)]);
                     ("columns", JObj [("stmt", stmt2); ("rows", rows2)]);
                     ("rowcount", rowcount)]]
      end
  end.
Proof.
  intros Hc%validate_present Hn%previewValidation_named r q3 failure.
  subst q3 failure.
  cut (forall m,
         m = match index0 (type_error rt) rows3 with
             | inl e => inl e
             | inr row => member (type_error rt) row "CNT"
             end ->
         In (EvExecute h
               (JObj [("sqlText",
                       JStr (countQuery (lookup "database" body) (lookup "schema" body)
                               (lookup "relation" body)))])
               (inr (stmt3, rows3))) (calls r) ->
         match m with
         | inl e =>
             fst r = Return /\
             sent (snd r)
             = [unsuccessful ("Error executing Snowflake query: " ++ message e)]
         | inr rowcount =>
             fst r = Normal tt /\
             exists stmt1 rows1 stmt2 rows2,
               sent (snd r)
               = [JObj [("status", JStr "successful");
                        ("preview", JObj [("stmt", stmt1); ("rows", rows1)]);
                        ("columns", JObj [("stmt", stmt2); ("rows", rows2)]);
                        ("rowcount", rowcount)]]
         end).
  { intros G Hin. specialize (G _ eq_refl Hin).
    destruct (index0 (type_error rt) rows3) as [e|row]; [exact G|].
    destruct (member (type_error rt) row "CNT"); exact G. }
  intros m Hm.
  assert (N1 := previewQuery_not_countQuery (lookup "database" body)
                  (lookup "schema" body) (lookup "relation" body)).
  assert (N2 := describeQuery_not_countQuery (lookup "database" body)
                  (lookup "schema" body) (lookup "relation" body)).
  freeze r. unfold_run. rewrite Hc, Hn. analyse; intros Hrun Hin; subst r; unfold calls in Hin;
    simpl in Hin; pick_event Hin; try discriminate;
    inversion Hin; subst; try contradiction;
    repeat match goal with
           | H : index0 _ _ = _ |- _ => rewrite H; clear H
           | H : member _ _ _ = _ |- _ => rewrite H; clear H
           end;
    simpl; repeat split; do 4 eexists; reflexivity.
Qed.

(** X7.  On a valid preview request whose count statement returns rows
    with an object first, the response is the successful one and its
    [rowcount] is the [CNT] property of that first row: [undefined] when
    the row has none, and whatever the later rows are. *)
Theorem preview_rowcount_is_cnt_of_first_row :
  forall rt body h stmt3 row others,
    credentials_present body = true ->
    relation_named body = true ->
    let r := run post_relation_preview rt body in
    let q3 := JObj [("sqlText",
                     JStr (countQuery (lookup "database" body) (lookup "schema" body)
                             (lookup "relation" body)))] in
    In (EvExecute h q3 (inr (stmt3, JArr (JObj row :: others)))) (calls r) ->
    fst r = Normal tt /\
    exists stmt1 rows1 stmt2 rows2,
      sent (snd r)
      = [JObj [("status", JStr "successful");
               ("preview", JObj [("stmt", stmt1); ("rows", rows1)]);
               ("columns", JObj [("stmt", stmt2); ("rows", rows2)]);
               ("rowcount", lookup "CNT" row)]].
Proof.
  intros rt body h stmt3 row others Hc Hn r q3 Hin.
  exact (preview_count_rows_decide rt body h stmt3 (JArr (JObj row :: others)) Hc Hn Hin).
Qed.

Lemma preview_rowcount_is_cnt_of_first_row_witness :
  exists stmt1 rows1 stmt2 rows2,
    sent (snd (run post_relation_preview
                 (express_driver (JArr [JObj [("TOTAL", JNum 5)]; JObj [("CNT", JNum 7)]]))
                 preview_body))
    = [JObj [("status", JStr "successful");
             ("preview", JObj [("stmt", stmt1); ("rows", rows1)]);
             ("columns", JObj [("stmt", stmt2); ("rows", rows2)]);
             ("rowcount", JUndefined)]].
Proof.
  destruct (preview_rowcount_is_cnt_of_first_row
              (express_driver (JArr [JObj [("TOTAL", JNum 5)]; JObj [("CNT", JNum 7)]]))
              preview_body (mkHandle (JObj credentials)) (JStr "stmt")
              [("TOTAL", JNum 5)] [JObj [("CNT", JNum 7)]] eq_refl eq_refl)
    as (_ & H).
  - simpl. tauto.
  - exact H.
Defined.

(** X8.  On a valid preview request whose count statement succeeds with
    rows that are [undefined] or [null], or with a first row that is
    [null] or [undefined], reading the row count throws a TypeError that
    the third [catch] turns into the response [{status: "unsuccessful",
    reason: "Error executing Snowflake query: " + message}]; the handler
    returns. *)
Theorem preview_unreadable_count_rows_give_error_response :
  forall rt body h stmt3 rows3,
    credentials_present body = true ->
    relation_named body = true ->
    let r := run post_relation_preview rt body in
    let q3 := JObj [("sqlText",
                     JStr (countQuery (lookup "database" body) (lookup "schema" body)
                             (lookup "relation" body)))] in
    let reply := fun e : JsError =>
      JObj [("status", JStr "unsuccessful");
            ("reason", JStr ("Error executing Snowflake query: " ++ message e))] in
    In (EvExecute h q3 (inr (stmt3, rows3))) (calls r) ->
    (rows3 = JUndefined \/ rows3 = JNull ->
     fst r = Return /\ sent (snd r) = [reply (type_error rt rows3 "0")]) /\
    (forall first others,
       rows3 = JArr (first :: others) ->
       first = JUndefined \/ first = JNull ->
       fst r = Return /\ sent (snd r) = [reply (type_error rt first "CNT")]).
Proof.
  intros rt body h stmt3 rows3 Hc Hn r q3 reply Hin.
  pose proof (preview_count_rows_decide rt body h stmt3 rows3 Hc Hn Hin) as H.
  split.
  - intros [-> | ->]; exact H.
  - intros first others -> [-> | ->]; exact H.
Qed.

Lemma preview_unreadable_count_rows_give_error_response_witness :
  let r := run post_relation_preview (express_driver JNull) preview_body in
  fst r = Return /\
  sent (snd r)
  = [JObj [("status", JStr "unsuccessful");
           ("reason",
            JStr "Error executing Snowflake query: Cannot read property '0' of null")]].
Proof.
  intros r.
  destruct (preview_unreadable_count_rows_give_error_response (express_driver JNull)
              preview_body (mkHandle (JObj credentials)) (JStr "stmt") JNull
              eq_refl eq_refl) as (H & _).
  - simpl. tauto.
  - exact (H (or_intror eq_refl)).
Defined.

(** X9.  When the credentials check and the second check of /query or
    of /relation-preview both fail and the response object refuses a
    repeated send, the handler ends at its second [res.send]: the
    credentials error is the response, and no connection is created. *)
Theorem double_validation_failure_ends_at_second_send :
  forall rt body e,
    credentials_present body = false ->
    send_policy rt = SecondSendThrows e ->
    let v := validateSnowflakeConnectionParams (lookup "account" body)
               (lookup "username" body) (lookup "password" body) in
    (truthy (lookup "query" body) = false ->
     run post_query rt body
     = (Thrown e,
        mkWorld [EvSend v;
                 EvSend (JObj [("status", JStr "unsuccessful");
                               ("reason", JStr "A query must be provided")])]
          [v])) /\
    (relation_named body = false ->
     run post_relation_preview rt body
     = (Thrown e,
        mkWorld [EvSend v;
                 EvSend (nth 0 (previewValidation (lookup "database" body)
                                  (lookup "schema" body) (lookup "relation" body))
                           JUndefined)]
          [v])).
Proof.
  intros rt body e Hc Hp v. subst v.
  assert (Hv : truthy (validateSnowflakeConnectionParams (lookup "account" body)
                         (lookup "username" body) (lookup "password" body)) = true).
  { rewrite validate_truthy. unfold credentials_present in Hc. now rewrite Hc. }
  split.
  - intros Hq. unfold_run. rewrite Hv, Hq. simpl. now rewrite Hp.
  - intros Hn.
    assert (Hq : (0 <? List.length (previewValidation (lookup "database" body)
                                      (lookup "schema" body)
                                      (lookup "relation" body)))%nat = true).
    { rewrite previewValidation_nonempty. unfold relation_named in Hn. now rewrite Hn. }
    unfold_run. rewrite Hv, Hq. simpl. now rewrite Hp.
Qed.

Lemma double_validation_failure_ends_at_second_send_witness :
  filter is_driver_call (calls (run post_relation_preview (express_driver (JArr [])) []))
  = [].
Proof.
  rewrite (proj2 (double_validation_failure_ends_at_second_send
                    (express_driver (JArr [])) [] headers_sent eq_refl eq_refl) eq_refl).
  reflexivity.
Defined.

(** ** The API client of the test suite *)

Module ApiClientFacts.
Import ApiClient.

(** X10.  For a path that is a string, [apiPostJson] makes exactly one
    [axios] call, first of all: a POST to ["/api/" + path] with the
    headers [X-Requested-With: XMLHttpRequest] and [Content-Type:
    application/json], the query parameters and the data as given, and
    credentials on.  Its [headers] argument has no effect, and [apiPost]
    with a falsy content type does the same as [apiPostJson]. *)
Theorem apiPostJson_request :
  forall env (path : string) queryParams data headers,
    let config :=
      JObj [("url", JStr ("/api/" ++ path));
            ("method", JStr "post");
            ("headers", JObj [("X-Requested-With", JStr "XMLHttpRequest");
                              ("Content-Type", JStr "application/json")]);
            ("crossDomain", JBool true);
            ("params", queryParams);
            ("data", data);
            ("withCredentials", JBool true)] in
    (exists rest,
       snd (apiPostJson env (JStr path) queryParams data headers)
       = CallAxios config (axios env config) :: rest /\
       filter is_axios rest = []) /\
    (forall headers',
       apiPostJson env (JStr path) queryParams data headers'
       = apiPostJson env (JStr path) queryParams data headers) /\
    (forall contentType,
       truthy contentType = false ->
       apiPost env (JStr path) queryParams data contentType
       = apiPostJson env (JStr path) queryParams data headers).
Proof.
  intros env path queryParams data headers config. split; [|split].
  - unfold apiPostJson, apiPost, apiMethod, requestConfig, getAPIURL. simpl.
    fold config. destruct (axios env config) as [e|response]; simpl.
    + eexists; split; reflexivity.
    + destruct (member (env_type_error env) response "headers") as [e|hs]; simpl;
        [eexists; split; reflexivity|].
      destruct (member (env_type_error env) hs "set-cookie") as [e|cookie]; simpl;
        [eexists; split; reflexivity|].
      destruct (setCookie env cookie); simpl; [eexists; split; reflexivity|].
      destruct (member (env_type_error env) response "data"); simpl;
        eexists; split; reflexivity.
  - reflexivity.
  - intros contentType H.
    unfold apiPostJson, apiPost, apiMethod, requestConfig. now rewrite H.
Qed.

Lemma apiPostJson_request_witness :
  apiPost (answering (JStr "ok") JNull) (JStr "register") JUndefined JNull (JStr "")
  = apiPostJson (answering (JStr "ok") JNull) (JStr "register") JUndefined JNull JUndefined.
Proof.
  apply (proj2 (proj2 (apiPostJson_request (answering (JStr "ok") JNull) "register"
                         JUndefined JNull JUndefined))).
  reflexivity.
Defined.



End ApiClientFacts.
